(** * VolumeEMAStrategy (strategies/BigFrish/__init__.py)

    A shallow embedding of the strategy's decision logic, its position
    management and its Telegram notifications.

    Numbers.  Prices, volumes and percentages are Python/numpy floats in
    the source; they are embedded as exact rationals ([Q]), so rounding,
    infinities and NaN are outside the model.  Integer hyperparameters
    and counters are [Z].

    Effects.  Properties that only read the host are functions into
    [outcome] (a value or a raised exception).  Methods that write
    instructions or talk to the network are state transformers over
    [World] that also return an [outcome]; as in Python, what was
    written before an exception stays written. *)

From Stdlib Require Import ZArith QArith Qround Qabs List Sorted String Ascii Bool.
From Stdlib Require Import Lia Lqa.
From Stdlib Require DecimalString.
Import ListNotations.

Local Open Scope Z_scope.
Local Open Scope Q_scope.

(** ** Python run-time values *)

Module Py.

(** Instances of Python's [Exception] class that the modelled code can
    meet.  [ReadTimeout] and [ConnectionError] are the [requests] errors;
    [OtherException] stands for any further [Exception] subclass. *)
Inductive exn : Type :=
| IndexError
| TypeError
| ZeroDivisionError
| ReadTimeout
| ConnectionError
| OtherException (name : string).

Inductive outcome (A : Type) : Type :=
| Ret (a : A)
| Raise (e : exn).

Arguments Ret {A} a.
Arguments Raise {A} e.

Definition bind {A B : Type} (c : outcome A) (k : A -> outcome B) : outcome B :=
  match c with
  | Ret a => k a
  | Raise e => Raise e
  end.

(** [str(e)] as it appears in the console line. *)
Definition str_exn (e : exn) : string :=
  match e with
  | IndexError => "index out of range"
  | TypeError => "object is not subscriptable"
  | ZeroDivisionError => "division by zero"
  | ReadTimeout => "timed out"
  | ConnectionError => "connection error"
  | OtherException name => name
  end%string.

(** [xs[i]] on a sequence: a negative index counts from the end, an
    index outside the sequence raises [IndexError]. *)
Definition index {A : Type} (xs : list A) (i : Z) : outcome A :=
  let n := Z.of_nat (List.length xs) in
  let j := if (i <? 0)%Z then (n + i)%Z else i in
  if ((j <? 0)%Z || (n <=? j)%Z)%bool then Raise IndexError
  else match nth_error xs (Z.to_nat j) with
       | Some x => Ret x
       | None => Raise IndexError
       end.

(** Comparisons of numbers, as booleans. *)
Definition lt (x y : Q) : bool := (Qnum x * QDen y <? Qnum y * QDen x)%Z.
Definition gt (x y : Q) : bool := lt y x.
Definition le (x y : Q) : bool := Qle_bool x y.
Definition ge (x y : Q) : bool := Qle_bool y x.
Definition eq (x y : Q) : bool := Qeq_bool x y.

(** [x / y]: a zero divisor raises, as for Python numbers (numpy scalars
    would answer [inf] or [nan] with a warning; the rationals have
    neither). *)
Definition div (x y : Q) : outcome Q :=
  if Qeq_bool y 0 then Raise ZeroDivisionError else Ret (x / y).

(** Truth value of a string: only the empty string is false. *)
Definition truthy (s : string) : bool :=
  match s with
  | EmptyString => false
  | String _ _ => true
  end.

End Py.

Import Py.

Notation "'let?' x ':=' c 'in' k" := (Py.bind c (fun x => k))
  (at level 10, x name, c at level 100, k at level 200).

(** ** Data supplied by the host framework *)

(** One row of the candle array; the column numbers are the host's:
    0 timestamp, 1 open, 2 close, 3 high, 4 low, 5 volume. *)
Record Candle : Type := {
  c_timestamp : Q;
  c_open : Q;
  c_close : Q;
  c_high : Q;
  c_low : Q;
  c_volume : Q
}.

(** The option values of [hyperparameters], by name. *)
Record Hyperparameters : Type := {
  ema_volume_length : Z;
  volume_multiplier : Q;
  ema_price_trend : Z;
  use_volume_growth : bool;
  min_growth_percent : Q;
  growth_lookback : Z;
  use_sustained_volume : bool;
  min_consecutive_bars : Z;
  use_volume_rsi : bool;
  min_volume_rsi : Z;
  tp_percent : Q;
  sl_percent : Q;
  use_trailing_stop : bool;
  trail_activation : Q;
  trail_offset : Q;
  use_ema_sl : bool;
  telegram_token : string;
  telegram_chat_id : string
}.

(** The defaults of the table returned by [hyperparameters]. *)
Definition default_hp : Hyperparameters := {|
  ema_volume_length := 1400;
  volume_multiplier := 10;
  ema_price_trend := 1440;
  use_volume_growth := true;
  min_growth_percent := 15;
  growth_lookback := 5;
  use_sustained_volume := true;
  min_consecutive_bars := 2;
  use_volume_rsi := true;
  min_volume_rsi := 55;
  tp_percent := 4;
  sl_percent := 2;
  use_trailing_stop := true;
  trail_activation := 2;
  trail_offset := 1;
  use_ema_sl := true;
  telegram_token := "";
  telegram_chat_id := ""
|}.

(** The ['min'] and ['max'] bounds of the same table. *)
Definition hp_in_range (p : Hyperparameters) : Prop :=
  (1000 <= ema_volume_length p <= 2000)%Z /\
  5 <= volume_multiplier p <= 20 /\
  (1000 <= ema_price_trend p <= 2000)%Z /\
  5 <= min_growth_percent p <= 30 /\
  (2 <= growth_lookback p <= 10)%Z /\
  (1 <= min_consecutive_bars p <= 5)%Z /\
  (40 <= min_volume_rsi p <= 70)%Z /\
  1 <= tp_percent p <= 10 /\
  (1 # 2) <= sl_percent p <= 5 /\
  1 <= trail_activation p <= 5 /\
  (1 # 2) <= trail_offset p <= 3.

Record Position : Type := {
  entry_price : Q;
  qty : Q;
  pnl : Q;
  pnl_percentage : Q
}.

(** The form fields and the timeout of one [requests.post]. *)
Record Request : Type := {
  url : string;
  chat_id : string;
  text : string;
  parse_mode : string;
  timeout : Z
}.

(** Everything a callback reads from outside the strategy object during
    one invocation.  [requests_post] is the network as seen by that
    invocation: what the POST of a given request does. *)
Record Env : Type := {
  hp : Hyperparameters;
  candles : list Candle;
  current_candle : Candle;
  open : Q;
  close : Q;
  price : Q;
  is_long : bool;
  is_short : bool;
  position : Position;
  available_margin : Q;
  fee_rate : Q;
  symbol : string;
  requests_post : Request -> outcome unit
}.

(** The functions of the host framework and of the Python formatter that
    the strategy calls: [ta.ema], [ta.rsi], [utils.size_to_qty],
    [utils.timestamp_to_time], the format specification [:.Nf] and the
    default conversion of a number inside an f-string.  The strategy
    subscripts and measures what the two indicators return, so they
    return series. *)
Class Jesse : Type := {
  ta_ema : list Q -> Z -> list Q;
  ta_rsi : list Q -> Z -> list Q;
  size_to_qty : Q -> Q -> Q -> Q;
  timestamp_to_time : Q -> string;
  format_f : nat -> Q -> string;
  str_float : Q -> string;
  str_int : Z -> string
}.

(** ** What the strategy writes *)

(** An order instruction.  The strategy assigns a tuple [qty, price]; the
    host keeps instructions as an array of [[qty, price]] rows. *)
Inductive Instruction : Type :=
| Pair (q p : Q)
| Rows (rows : list (Q * Q)).

Record Trading : Type := {
  buy : option Instruction;
  sell : option Instruction;
  take_profit : option Instruction;
  stop_loss : option Instruction;
  telegram_sent : bool
}.

Record World : Type := {
  trading : Trading;
  posted : list Request;
  console : list string
}.

(** The strategy object after [__init__]: no instruction yet, flag
    down. *)
Definition init : Trading :=
  {| buy := None; sell := None; take_profit := None;
     stop_loss := None; telegram_sent := false |}.

Definition M (A : Type) : Type := World -> outcome A * World.

Definition mret {A : Type} (a : A) : M A := fun w => (Ret a, w).

Definition mbind {A B : Type} (c : M A) (k : A -> M B) : M B :=
  fun w =>
    match c w with
    | (Ret a, w') => k a w'
    | (Raise e, w') => (Raise e, w')
    end.

Definition lift {A : Type} (c : outcome A) : M A := fun w => (c, w).

(** [try: body except Exception as e: handler e]. *)
Definition try_except {A : Type} (body : M A) (handler : exn -> M A) : M A :=
  fun w =>
    match body w with
    | (Ret a, w') => (Ret a, w')
    | (Raise e, w') => handler e w'
    end.

Notation "x <- c ;; k" := (mbind c (fun x => k))
  (at level 61, c at next level, right associativity).
Notation "c ;;; k" := (mbind c (fun _ => k))
  (at level 61, right associativity).

(** ** The strategy *)

Section Strategy.

Context {J : Jesse}.

(** *** Indicators *)

(** [ta.ema(self.candles[:, 5], self.hp['ema_volume_length'])] *)
Definition ema_volume (h : Env) : list Q :=
  ta_ema (map c_volume (candles h)) (ema_volume_length (hp h)).

(** [ta.ema(self.candles[:, 2], self.hp['ema_price_trend'])] *)
Definition ema_trend (h : Env) : list Q :=
  ta_ema (map c_close (candles h)) (ema_price_trend (hp h)).

(** [ta.rsi(self.candles[:, 5], 14)] *)
Definition volume_rsi (h : Env) : list Q :=
  ta_rsi (map c_volume (candles h)) 14.

(** [self.candles[-1, 5]] *)
Definition current_volume (h : Env) : outcome Q :=
  let? c := index (candles h) (-1) in Ret (c_volume c).

Definition ema_volume_growth (h : Env) : outcome Q :=
  let lookback := growth_lookback (hp h) in
  if (Z.of_nat (List.length (ema_volume h)) <? lookback + 1)%Z then Ret 0
  else
    let? current_ema := index (ema_volume h) (-1) in
    let? past_ema := index (ema_volume h) (- lookback - 1) in
    if Py.eq past_ema 0 then Ret 0
    else
      let? ratio := Py.div (current_ema - past_ema) past_ema in
      Ret (ratio * 100).

(** The loop [for i in range(len(self.candles)-1, -1, -1)]: [n] indices
    remain, the one visited now is [n - 1]. *)
Fixpoint count_back (h : Env) (n : nat) (count : Z) : outcome Z :=
  match n with
  | O => Ret count
  | S i =>
      let? c := index (candles h) (Z.of_nat i) in
      let? e := index (ema_volume h) (Z.of_nat i) in
      if Py.gt (c_volume c) e then count_back h i (count + 1)%Z
      else Ret count
  end.

Definition consecutive_volume_bars (h : Env) : outcome Z :=
  count_back h (List.length (candles h)) 0%Z.

(** *** Volume filters *)

Definition check_volume_growth (h : Env) : outcome bool :=
  if negb (use_volume_growth (hp h)) then Ret true
  else
    let? g := ema_volume_growth h in
    Ret (Py.ge g (min_growth_percent (hp h))).

Definition check_sustained_volume (h : Env) : outcome bool :=
  if negb (use_sustained_volume (hp h)) then Ret true
  else
    let? n := consecutive_volume_bars h in
    Ret (min_consecutive_bars (hp h) <=? n)%Z.

Definition check_volume_rsi_filter (h : Env) : outcome bool :=
  if negb (use_volume_rsi (hp h)) then Ret true
  else
    let? r := index (volume_rsi h) (-1) in
    Ret (Py.ge r (inject_Z (min_volume_rsi (hp h)))).

Definition volume_spike (h : Env) : outcome bool :=
  let? v := current_volume h in
  let? e := index (ema_volume h) (-1) in
  Ret (Py.gt v (e * volume_multiplier (hp h))).

(** *** Entry conditions *)

Definition should_long (h : Env) : outcome bool :=
  let is_bullish := Py.gt (close h) (open h) in
  let? t := index (ema_trend h) (-1) in
  let above_trend := Py.gt (close h) t in
  let? volume_ok := volume_spike h in
  let? growth_ok := check_volume_growth h in
  let? sustained_ok := check_sustained_volume h in
  let? rsi_ok := check_volume_rsi_filter h in
  Ret (is_bullish && above_trend && volume_ok &&
       growth_ok && sustained_ok && rsi_ok)%bool.

Definition should_short (h : Env) : outcome bool :=
  let is_bearish := Py.lt (close h) (open h) in
  let? t := index (ema_trend h) (-1) in
  let below_trend := Py.lt (close h) t in
  let? volume_ok := volume_spike h in
  let? growth_ok := check_volume_growth h in
  let? sustained_ok := check_sustained_volume h in
  let? rsi_ok := check_volume_rsi_filter h in
  Ret (is_bearish && below_trend && volume_ok &&
       growth_ok && sustained_ok && rsi_ok)%bool.

Definition should_cancel_entry (h : Env) : bool := false.

(** *** Position management *)

Definition update_trading (f : Trading -> Trading) : M unit :=
  fun w =>
    (Ret tt, {| trading := f (trading w);
                posted := posted w;
                console := console w |}).

(** The assignments [self.buy = ...], [self.sell = ...],
    [self.take_profit = ...], [self.stop_loss = ...] and
    [self.telegram_sent = ...]. *)
Definition set_buy (i : Instruction) : M unit :=
  update_trading (fun t =>
    {| buy := Some i; sell := sell t; take_profit := take_profit t;
       stop_loss := stop_loss t; telegram_sent := telegram_sent t |}).

Definition set_sell (i : Instruction) : M unit :=
  update_trading (fun t =>
    {| buy := buy t; sell := Some i; take_profit := take_profit t;
       stop_loss := stop_loss t; telegram_sent := telegram_sent t |}).

Definition set_take_profit (i : Instruction) : M unit :=
  update_trading (fun t =>
    {| buy := buy t; sell := sell t; take_profit := Some i;
       stop_loss := stop_loss t; telegram_sent := telegram_sent t |}).

Definition set_stop_loss (i : Instruction) : M unit :=
  update_trading (fun t =>
    {| buy := buy t; sell := sell t; take_profit := take_profit t;
       stop_loss := Some i; telegram_sent := telegram_sent t |}).

Definition set_telegram_sent (b : bool) : M unit :=
  update_trading (fun t =>
    {| buy := buy t; sell := sell t; take_profit := take_profit t;
       stop_loss := stop_loss t; telegram_sent := b |}).

(** [x[0][1]] on an instruction attribute: the price of the first row.
    [None] and a number are not subscriptable. *)
Definition item_0_1 (x : option Instruction) : outcome Q :=
  match x with
  | None => Raise TypeError
  | Some (Pair _ _) => Raise TypeError
  | Some (Rows rows) => let? row := index rows 0 in Ret (snd row)
  end.

(** [print(...)] *)
Definition print (line : string) : M unit :=
  fun w =>
    (Ret tt, {| trading := trading w;
                posted := posted w;
                console := console w ++ [line] |}).

(** [requests.post(url, data=data, timeout=5)]: the attempt is recorded,
    then the network answers or raises. *)
Definition post (h : Env) (r : Request) : M unit :=
  fun w =>
    (requests_post h r, {| trading := trading w;
                           posted := posted w ++ [r];
                           console := console w |}).

Definition position_size (h : Env) : Q :=
  size_to_qty (available_margin h) (price h) (fee_rate h).

(** *** Telegram notification *)

Local Open Scope string_scope.

Definition nl : string := String (Ascii.ascii_of_nat 10) EmptyString.

(** The f-string of [send_telegram_notification]; its fields are
    evaluated from left to right, so the first failing read decides. *)
Definition entry_message (h : Env) (side : string) (tp sl : Q) : outcome string :=
  let? v := current_volume h in
  let? e := index (ema_volume h) (-1) in
  let? ratio := Py.div v e in
  let? growth := ema_volume_growth h in
  let? rsi := index (volume_rsi h) (-1) in
  let? bars := consecutive_volume_bars h in
  Ret (nl ++
       "🚀 SIGNAL " ++ side ++ " - " ++ symbol h ++ nl ++
       nl ++
       "💰 Prix d'entrée: " ++ format_f 8 (price h) ++ nl ++
       "🎯 Take Profit: " ++ format_f 8 tp ++
         " (+" ++ str_float (tp_percent (hp h)) ++ "%)" ++ nl ++
       "🛡 Stop Loss: " ++ format_f 8 sl ++
         " (-" ++ str_float (sl_percent (hp h)) ++ "%)" ++ nl ++
       nl ++
       "📊 Volume: " ++ format_f 0 v ++ nl ++
       "📈 EMA Vol: " ++ format_f 0 e ++ nl ++
       "🔥 Multiplier: " ++ format_f 2 ratio ++ "x" ++ nl ++
       nl ++
       "📉 Croissance EMA Vol: " ++ format_f 2 growth ++ "%" ++ nl ++
       "📊 RSI Volume: " ++ format_f 1 rsi ++ nl ++
       "🔄 Bougies consécutives: " ++ str_int bars ++ nl ++
       nl ++
       "⏰ " ++ timestamp_to_time (c_timestamp (current_candle h)) ++ nl ++
       "        ").

Definition send_url (token : string) : string :=
  "https://api.telegram.org/bot" ++ token ++ "/sendMessage".

(** The [url] and the [data] dictionary of both senders. *)
Definition telegram_request (token chat message : string) : Request :=
  {| url := send_url token;
     chat_id := chat;
     text := message;
     parse_mode := "HTML";
     timeout := 5 |}.

Definition send_telegram_notification
    (h : Env) (side : string) (tp sl : Q) : M unit :=
  let token := telegram_token (hp h) in
  let chat := telegram_chat_id (hp h) in
  if (negb (truthy token) || negb (truthy chat))%bool then mret tt
  else
    message <- lift (entry_message h side tp sl) ;;
    try_except
      (post h (telegram_request token chat message))
      (fun e => print ("Erreur Telegram: " ++ str_exn e)).

(** *** Entries *)

Definition go_long (h : Env) : M unit :=
  let qty := position_size h in
  let tp := (price h + (price h * tp_percent (hp h) / 100))%Q in
  sl <- lift (if use_ema_sl (hp h) then index (ema_trend h) (-1)
              else Ret (price h - (price h * sl_percent (hp h) / 100))%Q) ;;
  set_buy (Pair qty (price h)) ;;;
  set_take_profit (Pair qty tp) ;;;
  set_stop_loss (Pair qty sl) ;;;
  send_telegram_notification h "LONG" tp sl.

Definition go_short (h : Env) : M unit :=
  let qty := position_size h in
  let tp := (price h - (price h * tp_percent (hp h) / 100))%Q in
  sl <- lift (if use_ema_sl (hp h) then index (ema_trend h) (-1)
              else Ret (price h + (price h * sl_percent (hp h) / 100))%Q) ;;
  set_sell (Pair qty (price h)) ;;;
  set_take_profit (Pair qty tp) ;;;
  set_stop_loss (Pair qty sl) ;;;
  send_telegram_notification h "SHORT" tp sl.

(** *** Trailing stop *)

(** The candidate stop of each side. *)
Definition long_candidate (h : Env) : Q :=
  (price h * (1 - trail_offset (hp h) / 100))%Q.

Definition short_candidate (h : Env) : Q :=
  (price h * (1 + trail_offset (hp h) / 100))%Q.

Definition update_position (h : Env) : M unit :=
  if negb (use_trailing_stop (hp h)) then mret tt
  else if is_long h then
    let activation_price :=
      (entry_price (position h) * (1 + trail_activation (hp h) / 100))%Q in
    if Py.ge (price h) activation_price then
      let new_sl := long_candidate h in
      fun w =>
        (current <- lift (item_0_1 (stop_loss (trading w))) ;;
         if Py.gt new_sl current
         then set_stop_loss (Pair (qty (position h)) new_sl)
         else mret tt) w
    else mret tt
  else if is_short h then
    let activation_price :=
      (entry_price (position h) * (1 - trail_activation (hp h) / 100))%Q in
    if Py.le (price h) activation_price then
      let new_sl := short_candidate h in
      fun w =>
        (current <- lift (item_0_1 (stop_loss (trading w))) ;;
         if Py.lt new_sl current
         then set_stop_loss (Pair (qty (position h)) new_sl)
         else mret tt) w
    else mret tt
  else mret tt.

(** *** Lifecycle hooks *)

Definition on_open_position (h : Env) : M unit :=
  set_telegram_sent false.

Definition close_message (h : Env) : string :=
  nl ++
  "✅ POSITION FERMÉE - " ++ symbol h ++ nl ++
  nl ++
  "💵 PnL: " ++ format_f 2 (pnl (position h)) ++
    " USD (" ++ format_f 2 (pnl_percentage (position h)) ++ "%)" ++ nl ++
  "📊 Prix de sortie: " ++ format_f 8 (price h) ++ nl ++
  "⏰ " ++ timestamp_to_time (c_timestamp (current_candle h)) ++ nl ++
  "        ".

Definition on_close_position (h : Env) : M unit :=
  if (negb (truthy (telegram_token (hp h))) ||
      negb (truthy (telegram_chat_id (hp h))))%bool then mret tt
  else
    let message := close_message h in
    try_except
      (post h (telegram_request (telegram_token (hp h))
                                (telegram_chat_id (hp h)) message))
      (fun e => print ("Erreur Telegram: " ++ str_exn e)).

Local Close Scope string_scope.

(** *** The host between two callbacks *)

(** The host stores every instruction as rows before it calls the
    strategy again: a tuple [qty, price] becomes the single row
    [[qty, price]]. *)
Definition formatted (i : Instruction) : Instruction :=
  match i with
  | Pair q p => Rows [(q, p)]
  | Rows rows => Rows rows
  end.

Definition host_prepare (w : World) : World :=
  let t := trading w in
  {| trading := {| buy := option_map formatted (buy t);
                   sell := option_map formatted (sell t);
                   take_profit := option_map formatted (take_profit t);
                   stop_loss := option_map formatted (stop_loss t);
                   telegram_sent := telegram_sent t |};
     posted := posted w;
     console := console w |}.

(** Successive ticks of an open position: on each one the host calls
    [update_position] with that tick's inputs and then stores the
    instructions.  An exception ends the run. *)
Fixpoint run_updates (hs : list Env) : M unit :=
  match hs with
  | [] => mret tt
  | h :: rest =>
      fun w =>
        match update_position h w with
        | (Ret _, w') => run_updates rest (host_prepare w')
        | (Raise e, w') => (Raise e, w')
        end
  end.

(** The active stop-loss price, as [update_position] reads it. *)
Definition stop_price (w : World) : option Q :=
  match item_0_1 (stop_loss (trading w)) with
  | Ret p => Some p
  | Raise _ => None
  end.

End Strategy.

(** ** Vocabulary of the properties *)

Section Vocabulary.

Context {J : Jesse}.

(** An entry signal fires when the predicate returns [True]. *)
Definition fires (o : outcome bool) : bool :=
  match o with
  | Ret true => true
  | _ => false
  end.

(** The history of the volume EMA is shorter than
    [growth_lookback + 1]. *)
Definition insufficient_history (h : Env) : Prop :=
  (Z.of_nat (List.length (ema_volume h)) < growth_lookback (hp h) + 1)%Z.

(** Bar [i] of the window has a volume above the volume EMA at [i]. *)
Definition bar_above (h : Env) (i : nat) : Prop :=
  exists c e,
    nth_error (candles h) i = Some c /\
    nth_error (ema_volume h) i = Some e /\
    e < c_volume c.

(** The last [n] bars of the window are all above their EMA, and the
    bar before them, when there is one, is not. *)
Definition maximal_suffix (h : Env) (n : nat) : Prop :=
  (n <= List.length (candles h))%nat /\
  (forall i, (List.length (candles h) - n <= i < List.length (candles h))%nat ->
             bar_above h i) /\
  ((n < List.length (candles h))%nat ->
   ~ bar_above h (List.length (candles h) - n - 1)).

(** The stop-loss prices held after each tick of a run, up to the
    first exception. *)
Fixpoint stop_trace (hs : list Env) (w : World) : list (option Q) :=
  match hs with
  | [] => []
  | h :: rest =>
      match update_position h w with
      | (Ret _, w') =>
          stop_price (host_prepare w') :: stop_trace rest (host_prepare w')
      | (Raise _, _) => []
      end
  end.

(** The trailing stop is switched on and the price has reached the
    activation price of the position. *)
Definition trailing_active_long (h : Env) : Prop :=
  use_trailing_stop (hp h) = true /\
  entry_price (position h) * (1 + trail_activation (hp h) / 100) <= price h.

Definition trailing_active_short (h : Env) : Prop :=
  use_trailing_stop (hp h) = true /\
  price h <= entry_price (position h) * (1 - trail_activation (hp h) / 100).

(** The same invocation over another network. *)
Definition with_network (net : Request -> outcome unit) (h : Env) : Env :=
  {| hp := hp h;
     candles := candles h;
     current_candle := current_candle h;
     open := open h;
     close := close h;
     price := price h;
     is_long := is_long h;
     is_short := is_short h;
     position := position h;
     available_margin := available_margin h;
     fee_rate := fee_rate h;
     symbol := symbol h;
     requests_post := net |}.

(** The methods the host invokes on the strategy object. *)
Inductive Callback : Type :=
| GoLong
| GoShort
| UpdatePosition
| OnOpenPosition
| OnClosePosition
| SendTelegramNotification (side : string) (tp sl : Q).

Definition call (c : Callback) (h : Env) : M unit :=
  match c with
  | GoLong => go_long h
  | GoShort => go_short h
  | UpdatePosition => update_position h
  | OnOpenPosition => on_open_position h
  | OnClosePosition => on_close_position h
  | SendTelegramNotification side tp sl =>
      send_telegram_notification h side tp sl
  end.

(** The world after a series of invocations, each with the inputs of its
    moment and followed by the host storing the instructions, whatever
    each invocation returned or raised. *)
Fixpoint session (cs : list (Callback * Env)) (w : World) : World :=
  match cs with
  | [] => w
  | (c, h) :: rest => session rest (host_prepare (snd (call c h w)))
  end.

(** The entry scenario: a bullish candle above the trend whose volume
    is twelve times the latest volume EMA [e], multiplier 10, the three
    optional filters off, the stop on the trend EMA [t] and a target of
    4 percent. *)
Definition long_scenario (h : Env) (e t : Q) : Prop :=
  open h < close h /\
  index (ema_trend h) (-1) = Ret t /\
  t < close h /\
  index (ema_volume h) (-1) = Ret e /\
  (exists v, current_volume h = Ret v /\ v == 12 * e) /\
  volume_multiplier (hp h) == 10 /\
  use_volume_growth (hp h) = false /\
  use_sustained_volume (hp h) = false /\
  use_volume_rsi (hp h) = false /\
  use_ema_sl (hp h) = true /\
  tp_percent (hp h) == 4.

End Vocabulary.

(** ** A concrete host

    An exponential moving average and simple printers, to run the
    strategy on small windows. *)

Module Sample.

Fixpoint ema_from (alpha prev : Q) (xs : list Q) : list Q :=
  match xs with
  | [] => []
  | x :: rest =>
      let y := Qred (alpha * x + (1 - alpha) * prev) in
      y :: ema_from alpha y rest
  end.

(** Seeded with the first value, smoothing [2 / (period + 1)]. *)
Definition ema (source : list Q) (period : Z) : list Q :=
  match source with
  | [] => []
  | x :: rest => Qred x :: ema_from (2 / (inject_Z period + 1)) (Qred x) rest
  end.

(** A flat oscillator: every bar reads 50. *)
Definition rsi (source : list Q) (period : Z) : list Q :=
  map (fun _ => 50) source.

Definition margin_qty (size entry fee : Q) : Q :=
  Qred (size * (1 - fee * 3) / entry).

Definition int_text (z : Z) : string :=
  DecimalString.NilZero.string_of_int (Z.to_int z).

Fixpoint zeros (n : nat) : string :=
  match n with
  | O => EmptyString
  | S k => String "0" (zeros k)
  end.

(** Fixed-point text with [n] decimals, rounded half up. *)
Definition fixed_text (n : nat) (q : Q) : string :=
  let scale := (10 ^ Z.of_nat n)%Z in
  let scaled := Qfloor (Qabs q * inject_Z scale + (1 # 2)) in
  let whole := int_text (scaled / scale)%Z in
  let part := int_text (scaled mod scale)%Z in
  let sign := if Py.lt q 0 then "-"%string else EmptyString in
  match n with
  | O => (sign ++ whole)%string
  | _ => (sign ++ whole ++ "." ++
          zeros (n - String.length part) ++ part)%string
  end.

Definition time_text (ts : Q) : string := int_text (Qfloor ts).

#[export] Instance host : Jesse := {|
  ta_ema := ema;
  ta_rsi := rsi;
  size_to_qty := margin_qty;
  timestamp_to_time := time_text;
  format_f := fixed_text;
  str_float := fixed_text 1;
  str_int := int_text
|}.

(** The same host with averages that skip the first bar of the window:
    a series one value shorter than its source. *)
Definition late_host : Jesse := {|
  ta_ema := fun source period => tl (ema source period);
  ta_rsi := rsi;
  size_to_qty := margin_qty;
  timestamp_to_time := time_text;
  format_f := fixed_text;
  str_float := fixed_text 1;
  str_int := int_text
|}.

End Sample.

(** ** Concrete windows and ticks *)

Module Fixtures.

Import Sample.

Definition candle (ts o c hi lo v : Q) : Candle :=
  {| c_timestamp := ts; c_open := o; c_close := c;
     c_high := hi; c_low := lo; c_volume := v |}.

Definition online : Request -> outcome unit := fun _ => Ret tt.
Definition offline : Request -> outcome unit := fun _ => Raise ReadTimeout.

Definition flat : Position :=
  {| entry_price := 0; qty := 0; pnl := 0; pnl_percentage := 0 |}.

(** As the host does, the current candle is the last one of the window
    and the price is its close. *)
Definition env_at (p : Hyperparameters) (before : list Candle) (last : Candle)
    (long short : bool) (pos : Position)
    (net : Request -> outcome unit) : Env :=
  {| hp := p;
     candles := before ++ [last];
     current_candle := last;
     open := c_open last;
     close := c_close last;
     price := c_close last;
     is_long := long;
     is_short := short;
     position := pos;
     available_margin := 10000;
     fee_rate := 0;
     symbol := "BTC-USDT";
     requests_post := net |}.

Definition with_filters (growth sustained rsi : bool)
    (p : Hyperparameters) : Hyperparameters :=
  {| ema_volume_length := ema_volume_length p;
     volume_multiplier := volume_multiplier p;
     ema_price_trend := ema_price_trend p;
     use_volume_growth := growth;
     min_growth_percent := min_growth_percent p;
     growth_lookback := growth_lookback p;
     use_sustained_volume := sustained;
     min_consecutive_bars := min_consecutive_bars p;
     use_volume_rsi := rsi;
     min_volume_rsi := min_volume_rsi p;
     tp_percent := tp_percent p;
     sl_percent := sl_percent p;
     use_trailing_stop := use_trailing_stop p;
     trail_activation := trail_activation p;
     trail_offset := trail_offset p;
     use_ema_sl := use_ema_sl p;
     telegram_token := telegram_token p;
     telegram_chat_id := telegram_chat_id p |}.

Definition with_lookback (n : Z) (p : Hyperparameters) : Hyperparameters :=
  {| ema_volume_length := ema_volume_length p;
     volume_multiplier := volume_multiplier p;
     ema_price_trend := ema_price_trend p;
     use_volume_growth := use_volume_growth p;
     min_growth_percent := min_growth_percent p;
     growth_lookback := n;
     use_sustained_volume := use_sustained_volume p;
     min_consecutive_bars := min_consecutive_bars p;
     use_volume_rsi := use_volume_rsi p;
     min_volume_rsi := min_volume_rsi p;
     tp_percent := tp_percent p;
     sl_percent := sl_percent p;
     use_trailing_stop := use_trailing_stop p;
     trail_activation := trail_activation p;
     trail_offset := trail_offset p;
     use_ema_sl := use_ema_sl p;
     telegram_token := telegram_token p;
     telegram_chat_id := telegram_chat_id p |}.

Definition with_telegram (token chat : string)
    (p : Hyperparameters) : Hyperparameters :=
  {| ema_volume_length := ema_volume_length p;
     volume_multiplier := volume_multiplier p;
     ema_price_trend := ema_price_trend p;
     use_volume_growth := use_volume_growth p;
     min_growth_percent := min_growth_percent p;
     growth_lookback := growth_lookback p;
     use_sustained_volume := use_sustained_volume p;
     min_consecutive_bars := min_consecutive_bars p;
     use_volume_rsi := use_volume_rsi p;
     min_volume_rsi := min_volume_rsi p;
     tp_percent := tp_percent p;
     sl_percent := sl_percent p;
     use_trailing_stop := use_trailing_stop p;
     trail_activation := trail_activation p;
     trail_offset := trail_offset p;
     use_ema_sl := use_ema_sl p;
     telegram_token := token;
     telegram_chat_id := chat |}.

Definition with_ema_sl (b : bool) (p : Hyperparameters) : Hyperparameters :=
  {| ema_volume_length := ema_volume_length p;
     volume_multiplier := volume_multiplier p;
     ema_price_trend := ema_price_trend p;
     use_volume_growth := use_volume_growth p;
     min_growth_percent := min_growth_percent p;
     growth_lookback := growth_lookback p;
     use_sustained_volume := use_sustained_volume p;
     min_consecutive_bars := min_consecutive_bars p;
     use_volume_rsi := use_volume_rsi p;
     min_volume_rsi := min_volume_rsi p;
     tp_percent := tp_percent p;
     sl_percent := sl_percent p;
     use_trailing_stop := use_trailing_stop p;
     trail_activation := trail_activation p;
     trail_offset := trail_offset p;
     use_ema_sl := b;
     telegram_token := telegram_token p;
     telegram_chat_id := telegram_chat_id p |}.

Definition filters_off : Hyperparameters :=
  with_filters false false false default_hp.

(** Three bars only, default options: fewer values than
    [growth_lookback + 1 = 6]. *)
Definition short_history : Env :=
  env_at default_hp
    [candle 0 100 101 102 99 500; candle 60000 101 102 103 100 520]
    (candle 120000 102 104 105 101 9000)
    false false flat online.

(** A rising candle in a window that never traded. *)
Definition zero_volume : Env :=
  env_at filters_off
    [candle 0 1 1 1 1 0]
    (candle 60000 1 3 3 1 0)
    false false flat online.

(** A bullish candle whose volume 16788 is twelve times the volume EMA
    1399 it produces. *)
Definition spike : Env :=
  env_at filters_off
    [candle 0 100 100 100 100 1377]
    (candle 60000 100 110 111 99 16788)
    false false flat online.

(** The same candle with volume 13990, ten times the EMA 1399. *)
Definition boundary : Env :=
  env_at filters_off
    [candle 0 100 100 100 100 1381]
    (candle 60000 100 110 111 99 13990)
    false false flat online.

(** Volumes 5, 1, 10, 20 against an EMA that stays near 5. *)
Definition sustained : Env :=
  env_at default_hp
    [candle 0 10 10 10 10 5; candle 60000 10 10 10 10 1;
     candle 120000 10 10 10 10 10]
    (candle 180000 10 11 11 10 20)
    false false flat online.

(** Two bars and a negative look-back. *)
Definition negative_lookback : Env :=
  env_at (with_lookback (-3) default_hp)
    [candle 0 100 100 100 100 1377]
    (candle 60000 100 110 111 99 16788)
    false false flat online.

(** Seven bars, the first six without any trade: the volume EMA six
    bars back is zero. *)
Definition dormant : Env :=
  env_at default_hp
    [candle 0 10 10 10 10 0; candle 60000 10 10 10 10 0;
     candle 120000 10 10 10 10 0; candle 180000 10 10 10 10 0;
     candle 240000 10 10 10 10 0; candle 300000 10 10 10 10 0]
    (candle 360000 10 11 11 10 50)
    false false flat online.

(** An empty window with every optional filter off. *)
Definition empty_window : Env :=
  {| hp := filters_off;
     candles := [];
     current_candle := candle 0 0 0 0 0 0;
     open := 0; close := 0; price := 0;
     is_long := false; is_short := false;
     position := flat;
     available_margin := 10000; fee_rate := 0;
     symbol := "BTC-USDT";
     requests_post := online |}.

(** Ticks of an open position entered at 100. *)
Definition held : Position :=
  {| entry_price := 100; qty := 5; pnl := 0; pnl_percentage := 0 |}.

Definition long_tick (p : Q) : Env :=
  env_at default_hp [candle 0 100 100 100 100 1377]
    (candle 60000 100 p p 99 1400) true false held online.

Definition short_tick (p : Q) : Env :=
  env_at default_hp [candle 0 100 100 100 100 1377]
    (candle 60000 100 p 101 p 1400) false true held online.

Definition fresh : World :=
  {| trading := init; posted := []; console := [] |}.

(** The world after an entry has been stored by the host. *)
Definition entered_long : World :=
  host_prepare (snd (go_long (long_tick 100) fresh)).

Definition entered_short : World :=
  host_prepare (snd (go_short (short_tick 100) fresh)).

(** Credentials set, and a network that times out. *)
Definition notified_offline : Env :=
  env_at (with_telegram "123456:token" "42" filters_off)
    [candle 0 100 100 100 100 1377]
    (candle 60000 100 110 111 99 16788)
    false false held offline.

(** The spike entered with the percent stop instead of the trend EMA. *)
Definition percent_stop : Env :=
  env_at (with_ema_sl false filters_off)
    [candle 0 100 100 100 100 1377]
    (candle 60000 100 110 111 99 16788)
    false false flat online.

(** A token without a chat id. *)
Definition no_chat : Env :=
  env_at (with_telegram "123456:token" "" filters_off)
    [candle 0 100 100 100 100 1377]
    (candle 60000 100 110 111 99 16788)
    false false held offline.

(** Credentials set and a network that answers. *)
Definition notified_online : Env :=
  env_at (with_telegram "123456:token" "42" filters_off)
    [candle 0 100 100 100 100 1377]
    (candle 60000 100 110 111 99 16788)
    false false held online.

(** Credentials set on a window without any bar. *)
Definition notified_empty : Env :=
  {| hp := with_telegram "123456:token" "42" (with_ema_sl false filters_off);
     candles := [];
     current_candle := candle 0 0 0 0 0 0;
     open := 100; close := 100; price := 100;
     is_long := false; is_short := false;
     position := flat;
     available_margin := 10000; fee_rate := 0;
     symbol := "BTC-USDT";
     requests_post := online |}.

(** Seven bars whose volume EMA grows from 1000 to more than 1150. *)
Definition growing : Env :=
  env_at default_hp
    [candle 0 10 10 10 10 1000; candle 60000 10 10 10 10 1000;
     candle 120000 10 10 10 10 1000; candle 180000 10 10 10 10 1000;
     candle 240000 10 10 10 10 1000; candle 300000 10 10 10 10 1000]
    (candle 360000 10 11 11 10 120000)
    false false flat online.

End Fixtures.

(** ** Facts about the run-time model *)

Section RuntimeFacts.

Lemma lt_iff (x y : Q) : Py.lt x y = true <-> x < y.
Proof. unfold Py.lt, Qlt. apply Z.ltb_lt. Qed.

Lemma lt_false_iff (x y : Q) : Py.lt x y = false <-> y <= x.
Proof. unfold Py.lt, Qle. apply Z.ltb_ge. Qed.

Lemma gt_iff (x y : Q) : Py.gt x y = true <-> y < x.
Proof. apply lt_iff. Qed.

Lemma gt_false_iff (x y : Q) : Py.gt x y = false <-> x <= y.
Proof. apply lt_false_iff. Qed.

Lemma ge_iff (x y : Q) : Py.ge x y = true <-> y <= x.
Proof. apply Qle_bool_iff. Qed.

Lemma ge_false_iff (x y : Q) : Py.ge x y = false <-> x < y.
Proof.
  unfold Py.ge. split; intro H.
  - apply Qnot_le_lt. intro L. apply Qle_bool_iff in L. congruence.
  - destruct (Qle_bool y x) eqn:E; [|reflexivity].
    apply Qle_bool_iff in E. exfalso. apply (Qlt_not_le _ _ H E).
Qed.

(** Two opposite strict comparisons never hold together. *)
Lemma lt_gt_exclusive (x y : Q) : (Py.gt x y && Py.lt x y)%bool = false.
Proof.
  destruct (Py.gt x y) eqn:G; [|reflexivity].
  apply gt_iff in G. cbn. apply lt_false_iff. apply Qlt_le_weak, G.
Qed.

Lemma index_nat {A : Type} (xs : list A) (i : nat) :
  index xs (Z.of_nat i) =
  match nth_error xs i with
  | Some x => Ret x
  | None => Raise IndexError
  end.
Proof.
  unfold index.
  destruct (Z.ltb_spec (Z.of_nat i) 0) as [L|L]; [lia|].
  rewrite Nat2Z.id.
  destruct (Z.ltb_spec (Z.of_nat i) 0) as [L'|L']; [lia|]. cbn [orb].
  destruct (Z.leb_spec (Z.of_nat (List.length xs)) (Z.of_nat i)) as [G|G].
  - assert (E : nth_error xs i = None) by (apply nth_error_None; lia).
    now rewrite E.
  - reflexivity.
Qed.

(** Counting back [k + 1] places succeeds exactly on a sequence of more
    than [k] values. *)
Lemma index_back {A : Type} (xs : list A) (k : Z) :
  (0 <= k < Z.of_nat (List.length xs))%Z ->
  exists x, index xs (- k - 1) = Ret x.
Proof.
  intros B. unfold index.
  destruct (Z.ltb_spec (- k - 1) 0) as [L|L]; [|lia].
  destruct (Z.ltb_spec (Z.of_nat (List.length xs) + (- k - 1)) 0) as [L'|L'];
    [lia|].
  destruct (Z.leb_spec (Z.of_nat (List.length xs))
              (Z.of_nat (List.length xs) + (- k - 1))) as [G|G]; [lia|].
  cbn [orb].
  destruct (nth_error xs (Z.to_nat (Z.of_nat (List.length xs) + (- k - 1))))
    as [x|] eqn:E.
  - now exists x.
  - apply nth_error_None in E. lia.
Qed.

Lemma index_last {A : Type} (xs : list A) :
  xs <> [] -> exists x, index xs (-1) = Ret x.
Proof.
  intros N. apply (index_back xs 0%Z).
  destruct xs; [congruence|]. cbn [List.length]. lia.
Qed.

(** The only exception of a subscript is [IndexError]. *)
Lemma index_raises {A : Type} (xs : list A) (i : Z) (e : exn) :
  index xs i = Raise e -> e = IndexError.
Proof.
  unfold index.
  destruct (_ || _)%bool; [congruence|].
  destruct (nth_error _ _); congruence.
Qed.

Lemma div_nonzero (x y : Q) :
  Qeq_bool y 0 = false -> Py.div x y = Ret (x / y).
Proof. intros E. unfold Py.div. now rewrite E. Qed.

End RuntimeFacts.

(** ** The volume filters *)

Section Filters.

Context {J : Jesse}.

Lemma growth_of_short_history (h : Env) :
  insufficient_history h -> ema_volume_growth h = Ret 0.
Proof.
  unfold insufficient_history, ema_volume_growth. intros S.
  destruct (Z.ltb_spec (Z.of_nat (List.length (ema_volume h)))
              (growth_lookback (hp h) + 1)) as [L|L]; [reflexivity|lia].
Qed.

(** C1, as amended.  With the growth filter enabled and fewer than
    [growth_lookback + 1] values of the volume EMA, [ema_volume_growth]
    returns 0 and [check_volume_growth] returns the comparison
    [0 >= min_growth_percent]: it passes exactly when
    [min_growth_percent] is at most 0, and fails for every positive
    [min_growth_percent], in particular for the declared range from 5
    to 30. *)
Theorem growth_filter_on_short_history (h : Env) :
  insufficient_history h ->
  use_volume_growth (hp h) = true ->
  ema_volume_growth h = Ret 0 /\
  check_volume_growth h = Ret (Py.ge 0 (min_growth_percent (hp h))) /\
  (check_volume_growth h = Ret true <-> min_growth_percent (hp h) <= 0) /\
  (0 < min_growth_percent (hp h) -> check_volume_growth h = Ret false).
Proof.
  intros S U.
  assert (G := growth_of_short_history h S).
  assert (C : check_volume_growth h =
              Ret (Py.ge 0 (min_growth_percent (hp h)))).
  { unfold check_volume_growth. rewrite U, G. reflexivity. }
  repeat split; try assumption.
  - rewrite C. intros E. apply ge_iff. congruence.
  - rewrite C. intros E. f_equal. now apply ge_iff.
  - rewrite C. intros P. f_equal. now apply ge_false_iff.
Qed.

Lemma growth_check_disabled (h : Env) :
  use_volume_growth (hp h) = false -> check_volume_growth h = Ret true.
Proof. intros F. unfold check_volume_growth. now rewrite F. Qed.

Lemma sustained_check_disabled (h : Env) :
  use_sustained_volume (hp h) = false -> check_sustained_volume h = Ret true.
Proof. intros F. unfold check_sustained_volume. now rewrite F. Qed.

Lemma rsi_check_disabled (h : Env) :
  use_volume_rsi (hp h) = false -> check_volume_rsi_filter h = Ret true.
Proof. intros F. unfold check_volume_rsi_filter. now rewrite F. Qed.

(** C9.  A check whose enabling flag is false returns true whatever the
    window and the indicators hold, for each of the three optional
    filters. *)
Theorem disabled_filter_passes (h : Env) :
  (use_volume_growth (hp h) = false -> check_volume_growth h = Ret true) /\
  (use_sustained_volume (hp h) = false ->
   check_sustained_volume h = Ret true) /\
  (use_volume_rsi (hp h) = false -> check_volume_rsi_filter h = Ret true).
Proof.
  repeat split; intros F.
  - now apply growth_check_disabled.
  - now apply sustained_check_disabled.
  - now apply rsi_check_disabled.
Qed.

End Filters.

(** ** The volume indicators *)

Section Indicators.

Context {J : Jesse}.

Lemma index_some_nonempty {A : Type} (xs : list A) (i : Z) (x : A) :
  index xs i = Ret x -> xs <> [].
Proof.
  intros E N. subst xs. unfold index in E. cbn [List.length] in E.
  destruct (Z.ltb_spec i 0) as [L|L].
  - destruct (Z.ltb_spec (Z.of_nat 0 + i) 0) as [L'|L']; [|lia].
    discriminate.
  - destruct (Z.ltb_spec i 0) as [L'|L']; [lia|].
    destruct (Z.leb_spec (Z.of_nat 0) i) as [G|G]; [|lia].
    discriminate.
Qed.

Lemma volume_spike_value (h : Env) (v e : Q) :
  current_volume h = Ret v ->
  index (ema_volume h) (-1) = Ret e ->
  volume_spike h = Ret (Py.gt v (e * volume_multiplier (hp h))).
Proof. intros V E. unfold volume_spike. now rewrite V, E. Qed.

Lemma volume_spike_reads (h : Env) (b : bool) :
  volume_spike h = Ret b ->
  exists v e,
    current_volume h = Ret v /\ index (ema_volume h) (-1) = Ret e.
Proof.
  unfold volume_spike.
  destruct (current_volume h) as [v|x]; [|discriminate].
  destruct (index (ema_volume h) (-1)) as [e|x]; [|discriminate].
  intros _. now exists v, e.
Qed.

(** C7.  [volume_spike] returns true exactly when the latest volume is
    strictly greater than [volume_multiplier] times the latest value of
    the volume EMA; when the two are equal it returns false. *)
Theorem volume_spike_is_strict (h : Env) :
  (volume_spike h = Ret true <->
   exists v e,
     current_volume h = Ret v /\
     index (ema_volume h) (-1) = Ret e /\
     volume_multiplier (hp h) * e < v) /\
  (forall v e,
     current_volume h = Ret v ->
     index (ema_volume h) (-1) = Ret e ->
     v == volume_multiplier (hp h) * e ->
     volume_spike h = Ret false).
Proof.
  split; [split|].
  - intros S. destruct (volume_spike_reads h _ S) as (v & e & V & E).
    exists v, e. repeat split; try assumption.
    rewrite (volume_spike_value h v e V E) in S.
    assert (G : Py.gt v (e * volume_multiplier (hp h)) = true)
      by congruence.
    apply gt_iff in G. now rewrite Qmult_comm.
  - intros (v & e & V & E & S). rewrite (volume_spike_value h v e V E).
    f_equal. apply gt_iff. now rewrite Qmult_comm.
  - intros v e V E B. rewrite (volume_spike_value h v e V E). f_equal.
    apply gt_false_iff. rewrite B, Qmult_comm. apply Qle_refl.
Qed.

(** C10, as amended.  [ema_volume_growth] never divides by zero, for
    any window and any [growth_lookback]; it returns a value for every
    window whenever [growth_lookback] is not negative; and with
    sufficient history and a zero volume EMA [growth_lookback + 1] bars
    back it returns 0. *)
Theorem ema_volume_growth_avoids_zero_division (h : Env) :
  ema_volume_growth h <> Raise ZeroDivisionError /\
  ((0 <= growth_lookback (hp h))%Z ->
   exists g, ema_volume_growth h = Ret g) /\
  (forall past,
     ~ insufficient_history h ->
     index (ema_volume h) (- growth_lookback (hp h) - 1) = Ret past ->
     past == 0 ->
     ema_volume_growth h = Ret 0).
Proof.
  unfold insufficient_history, ema_volume_growth.
  set (n := Z.of_nat (List.length (ema_volume h))).
  set (k := growth_lookback (hp h)).
  destruct (Z.ltb_spec n (k + 1)) as [S|S].
  - repeat split.
    + discriminate.
    + intros _. now exists 0.
  - repeat split.
    + destruct (index (ema_volume h) (-1)) as [c|x] eqn:C; cbn.
      * destruct (index (ema_volume h) (- k - 1)) as [p|y] eqn:P; cbn.
        -- unfold Py.eq, Py.div.
           destruct (Qeq_bool p 0); cbn; discriminate.
        -- apply index_raises in P. congruence.
      * apply index_raises in C. congruence.
    + intros K.
      destruct (index_back (ema_volume h) 0%Z) as [c C];
        [fold n; lia|].
      destruct (index_back (ema_volume h) k) as [p P];
        [fold n; lia|].
      change (- 0 - 1)%Z with (-1)%Z in C. rewrite C, P. cbn.
      unfold Py.eq, Py.div.
      destruct (Qeq_bool p 0); cbn; eauto.
    + intros past _ P Z0.
      destruct (index_last _ (index_some_nonempty _ _ _ P)) as [c C].
      rewrite C, P. cbn. unfold Py.eq.
      apply Qeq_bool_iff in Z0. now rewrite Z0.
Qed.

End Indicators.

(** ** Consecutive bars above the volume EMA *)

Section Sustained.

Context {J : Jesse}.

Variable h : Env.

Hypothesis ema_covers_window :
  (List.length (candles h) <= List.length (ema_volume h))%nat.

(** What one visit of the loop decides, in terms of [bar_above]. *)
Lemma visit_bar (i : nat) :
  (i < List.length (candles h))%nat ->
  exists c e,
    index (candles h) (Z.of_nat i) = Ret c /\
    index (ema_volume h) (Z.of_nat i) = Ret e /\
    (Py.gt (c_volume c) e = true <-> bar_above h i).
Proof.
  intros B.
  destruct (nth_error (candles h) i) as [c|] eqn:C;
    [|apply nth_error_None in C; lia].
  destruct (nth_error (ema_volume h) i) as [e|] eqn:E;
    [|apply nth_error_None in E; lia].
  exists c, e. rewrite !index_nat, C, E. repeat split.
  - intros G. apply gt_iff in G. now exists c, e.
  - intros (c' & e' & C' & E' & A). apply gt_iff. congruence.
Qed.

(** The loop started with [n] bars left and [count] bars counted adds
    the length [k] of the longest run of bars above the EMA that ends
    at bar [n - 1]. *)
Lemma count_back_run (n : nat) :
  (n <= List.length (candles h))%nat ->
  forall count,
  exists k,
    (k <= n)%nat /\
    count_back h n count = Ret (count + Z.of_nat k)%Z /\
    (forall i, (n - k <= i < n)%nat -> bar_above h i) /\
    ((k < n)%nat -> ~ bar_above h (n - k - 1)).
Proof.
  induction n as [|i IH]; intros B count.
  - exists 0%nat. cbn. rewrite Z.add_0_r. repeat split; lia.
  - destruct (visit_bar i) as (c & e & C & E & A); [lia|].
    cbn [count_back]. rewrite C, E. cbn [Py.bind].
    destruct (Py.gt (c_volume c) e) eqn:G.
    + destruct (IH ltac:(lia) (count + 1)%Z) as (k & K & R & Run & Stop).
      exists (S k). repeat split.
      * lia.
      * rewrite R. f_equal. lia.
      * intros j Bj. destruct (Nat.eq_dec j i) as [->|N].
        -- now apply A.
        -- apply Run. lia.
      * intros L. replace (S i - S k - 1)%nat with (i - k - 1)%nat by lia.
        apply Stop. lia.
    + exists 0%nat. repeat split.
      * lia.
      * now rewrite Z.add_0_r.
      * intros j Bj. lia.
      * intros _. replace (S i - 0 - 1)%nat with i by lia.
        intros Above. apply A in Above. congruence.
Qed.

Lemma maximal_suffix_unique (m n : nat) :
  maximal_suffix h m -> maximal_suffix h n -> m = n.
Proof.
  intros (Bm & Rm & Sm) (Bn & Rn & Sn).
  destruct (Nat.lt_trichotomy m n) as [L|[E|L]]; [|assumption|].
  - exfalso. apply Sm; [lia|]. apply Rn. lia.
  - exfalso. apply Sn; [lia|]. apply Rm. lia.
Qed.

(** C8.  When the volume EMA has a value at every bar of the window,
    [consecutive_volume_bars] is the length of the maximal suffix of
    the window whose bars all have a volume strictly above the EMA at
    that bar, and the enabled sustained-volume check returns true
    exactly when that length is at least [min_consecutive_bars]. *)
Theorem consecutive_bars_is_maximal_suffix :
  exists n,
    consecutive_volume_bars h = Ret (Z.of_nat n) /\
    maximal_suffix h n /\
    (forall m, maximal_suffix h m -> m = n) /\
    (use_sustained_volume (hp h) = true ->
     check_sustained_volume h =
       Ret (min_consecutive_bars (hp h) <=? Z.of_nat n)%Z /\
     (check_sustained_volume h = Ret true <->
      (min_consecutive_bars (hp h) <= Z.of_nat n)%Z)).
Proof.
  destruct (count_back_run (List.length (candles h)) (Nat.le_refl _) 0%Z)
    as (n & B & R & Run & Stop).
  assert (Mx : maximal_suffix h n) by (repeat split; assumption).
  assert (C : consecutive_volume_bars h = Ret (Z.of_nat n))
    by (unfold consecutive_volume_bars; rewrite R; reflexivity).
  exists n. repeat split; try assumption.
  - intros m Mm. now apply maximal_suffix_unique.
  - unfold check_sustained_volume. now rewrite H, C.
  - unfold check_sustained_volume. rewrite H, C. cbn.
    intros E. apply Z.leb_le. congruence.
  - unfold check_sustained_volume. rewrite H, C. cbn.
    intros E. f_equal. now apply Z.leb_le.
Qed.

End Sustained.

(** ** Notifications *)

Section Notifications.

Context {J : Jesse}.

Local Open Scope string_scope.

Lemma falsy_empty : truthy "" = false.
Proof. reflexivity. Qed.

(** Sending never touches the instructions, whatever the network and
    the indicators do. *)
Lemma notification_keeps_trading (h : Env) (side : string) (tp sl : Q)
    (w : World) :
  trading (snd (send_telegram_notification h side tp sl w)) = trading w.
Proof.
  unfold send_telegram_notification.
  destruct (negb _ || negb _)%bool; [reflexivity|].
  unfold mbind, lift, try_except, post, print.
  destruct (entry_message h side tp sl) as [m|x]; [|reflexivity].
  destruct (requests_post h _); reflexivity.
Qed.

(** C6.  With an empty [telegram_token], [send_telegram_notification]
    and [on_close_position] return normally and leave the world as it
    was: nothing is posted and nothing is raised; an entry through
    [go_long] or [go_short] posts nothing either. *)
Theorem empty_token_sends_nothing (h : Env) (w : World) :
  telegram_token (hp h) = "" ->
  (forall side tp sl,
     send_telegram_notification h side tp sl w = (Ret tt, w)) /\
  on_close_position h w = (Ret tt, w) /\
  posted (snd (go_long h w)) = posted w /\
  posted (snd (go_short h w)) = posted w.
Proof.
  intros T.
  assert (N : forall side tp sl w0,
             send_telegram_notification h side tp sl w0 = (Ret tt, w0)).
  { intros. unfold send_telegram_notification. now rewrite T. }
  repeat split.
  - intros. apply N.
  - unfold on_close_position. now rewrite T.
  - unfold go_long, mbind, lift.
    destruct (if use_ema_sl (hp h) then _ else _); [|reflexivity].
    cbn. now rewrite N.
  - unfold go_short, mbind, lift.
    destruct (if use_ema_sl (hp h) then _ else _); [|reflexivity].
    cbn. now rewrite N.
Qed.

(** C5.  With both credentials set, when the POST of the notification
    raises an exception [e], [send_telegram_notification] and
    [on_close_position] return normally; the instructions and the
    notification flag are what they were before the call, the request
    is recorded as attempted and one line goes to the console. *)
Theorem failed_post_is_swallowed (h : Env) (w : World) (e : exn) :
  truthy (telegram_token (hp h)) = true ->
  truthy (telegram_chat_id (hp h)) = true ->
  (forall side tp sl message,
     entry_message h side tp sl = Ret message ->
     let request :=
       telegram_request (telegram_token (hp h))
                        (telegram_chat_id (hp h)) message in
     requests_post h request = Raise e ->
     exists w',
       send_telegram_notification h side tp sl w = (Ret tt, w') /\
       trading w' = trading w /\
       posted w' = (posted w ++ [request])%list /\
       console w' = (console w ++ [("Erreur Telegram: " ++ str_exn e)%string])%list) /\
  (let request :=
     telegram_request (telegram_token (hp h))
                      (telegram_chat_id (hp h)) (close_message h) in
   requests_post h request = Raise e ->
   exists w',
     on_close_position h w = (Ret tt, w') /\
     trading w' = trading w /\
     posted w' = (posted w ++ [request])%list /\
     console w' = (console w ++ [("Erreur Telegram: " ++ str_exn e)%string])%list).
Proof.
  intros T C. split.
  - intros side tp sl message M request F.
    unfold send_telegram_notification. rewrite T, C. cbn [negb orb].
    unfold mbind, lift, try_except, post, print. rewrite M.
    fold request. rewrite F.
    eexists. repeat split.
  - intros request F.
    unfold on_close_position. rewrite T, C. cbn [negb orb].
    unfold try_except, post, print. fold request. rewrite F.
    eexists. repeat split.
Qed.

End Notifications.

(** ** Entries *)

Section Entries.

Context {J : Jesse}.

(** C3.  [should_long] and [should_short] never both return true: the
    candle test of one is [close > open] and of the other
    [close < open], the trend test of one is [close > t] and of the
    other [close < t] for the same latest trend value [t], and two
    such strict comparisons never hold together. *)
Theorem entries_are_exclusive (h : Env) :
  (fires (should_long h) && fires (should_short h))%bool = false /\
  (Py.gt (close h) (open h) && Py.lt (close h) (open h))%bool = false /\
  (forall t, (Py.gt (close h) t && Py.lt (close h) t)%bool = false).
Proof.
  assert (X := lt_gt_exclusive (close h) (open h)).
  repeat split; [|assumption|intros; apply lt_gt_exclusive].
  unfold should_long, should_short.
  destruct (index (ema_trend h) (-1)) as [t|]; [|reflexivity].
  destruct (volume_spike h) as [v|]; [|reflexivity].
  destruct (check_volume_growth h) as [g|]; [|reflexivity].
  destruct (check_sustained_volume h) as [s|]; [|reflexivity].
  destruct (check_volume_rsi_filter h) as [r|]; [|reflexivity].
  cbn.
  destruct (Py.gt (close h) (open h)), (Py.lt (close h) (open h));
    cbn in *; try discriminate;
    repeat match goal with
           | |- context [if ?b then _ else _] => destruct b; cbn
           | |- context [(?b && _)%bool] => destruct b; cbn
           end; reflexivity.
Qed.

(** The instructions an entry on the trend stop leaves behind. *)
Lemma go_long_instructions (h : Env) (w : World) (t : Q) :
  use_ema_sl (hp h) = true ->
  index (ema_trend h) (-1) = Ret t ->
  trading (snd (go_long h w)) =
  {| buy := Some (Pair (position_size h) (price h));
     sell := sell (trading w);
     take_profit :=
       Some (Pair (position_size h)
                  (price h + price h * tp_percent (hp h) / 100));
     stop_loss := Some (Pair (position_size h) t);
     telegram_sent := telegram_sent (trading w) |}.
Proof.
  intros U T. unfold go_long, mbind, lift. rewrite U, T. cbn.
  now rewrite notification_keeps_trading.
Qed.

(** C4, as amended.  In the scenario (bullish candle above the trend,
    volume twelve times the latest volume EMA, multiplier 10, optional
    filters off), [should_long] returns true provided the latest volume
    EMA is positive; and [go_long] with [use_ema_sl] and a
    [tp_percent] of 4 sets the take-profit price to 1.04 times the
    price and the stop-loss price to the latest trend EMA. *)
Theorem long_entry_scenario (h : Env) (e t : Q) (w : World) :
  long_scenario h e t ->
  (0 < e -> should_long h = Ret true) /\
  (exists tp,
     take_profit (trading (snd (go_long h w))) =
       Some (Pair (position_size h) tp) /\
     tp == price h * 1.04) /\
  stop_loss (trading (snd (go_long h w))) = Some (Pair (position_size h) t).
Proof.
  intros (Bull & T & Above & E & (v & V & V12) & M & G & S & R & U & TP).
  pose proof (go_long_instructions h w t U T) as I.
  repeat split.
  - intros Pos. unfold should_long. rewrite T. cbn [Py.bind].
    assert (Sp : Py.gt v (e * volume_multiplier (hp h)) = true).
    { apply gt_iff. rewrite V12, M. lra. }
    rewrite (volume_spike_value h v e V E), Sp.
    rewrite (growth_check_disabled h G), (sustained_check_disabled h S),
      (rsi_check_disabled h R). cbn.
    apply gt_iff in Bull. apply gt_iff in Above.
    now rewrite Bull, Above.
  - eexists. split.
    + rewrite I. reflexivity.
    + rewrite TP. field.
  - now rewrite I.
Qed.

End Entries.

(** ** The trailing stop *)

Section Trailing.

Context {J : Jesse}.

(** The three ways a call on a long position can end: nothing changes,
    the read of the current stop raises, or the candidate is strictly
    above the current stop and replaces it. *)
Lemma update_long_cases (h : Env) (w : World) :
  is_long h = true ->
  update_position h w = (Ret tt, w) \/
  (exists x,
     item_0_1 (stop_loss (trading w)) = Raise x /\
     update_position h w = (Raise x, w)) \/
  (exists cur,
     item_0_1 (stop_loss (trading w)) = Ret cur /\
     cur < long_candidate h /\
     update_position h w =
       set_stop_loss (Pair (qty (position h)) (long_candidate h)) w).
Proof.
  intros L. unfold update_position. rewrite L.
  destruct (negb (use_trailing_stop (hp h))); [now left|].
  destruct (Py.ge (price h) _); [|now left].
  unfold mbind, lift.
  destruct (item_0_1 (stop_loss (trading w))) as [cur|x] eqn:I.
  - destruct (Py.gt (long_candidate h) cur) eqn:G.
    + right; right. exists cur. apply gt_iff in G. now repeat split.
    + now left.
  - right; left. now exists x.
Qed.

Lemma update_short_cases (h : Env) (w : World) :
  is_long h = false ->
  is_short h = true ->
  update_position h w = (Ret tt, w) \/
  (exists x,
     item_0_1 (stop_loss (trading w)) = Raise x /\
     update_position h w = (Raise x, w)) \/
  (exists cur,
     item_0_1 (stop_loss (trading w)) = Ret cur /\
     short_candidate h < cur /\
     update_position h w =
       set_stop_loss (Pair (qty (position h)) (short_candidate h)) w).
Proof.
  intros L S. unfold update_position. rewrite L, S.
  destruct (negb (use_trailing_stop (hp h))); [now left|].
  destruct (Py.le (price h) _); [|now left].
  unfold mbind, lift.
  destruct (item_0_1 (stop_loss (trading w))) as [cur|x] eqn:I.
  - destruct (Py.lt (short_candidate h) cur) eqn:G.
    + right; right. exists cur. apply lt_iff in G. now repeat split.
    + now left.
  - right; left. now exists x.
Qed.

(** Storing the instructions keeps a stop that is already in rows and
    turns an assigned tuple into its price. *)
Lemma stop_price_kept (w : World) (p : Q) :
  stop_price w = Some p -> stop_price (host_prepare w) = Some p.
Proof.
  unfold stop_price, host_prepare. cbn.
  destruct (stop_loss (trading w)) as [[q c|rows]|]; cbn; try discriminate.
  trivial.
Qed.

Lemma stop_price_assigned (q c : Q) (w : World) :
  stop_price (host_prepare (snd (set_stop_loss (Pair q c) w))) = Some c.
Proof. reflexivity. Qed.

Lemma stop_price_read (w : World) (p : Q) :
  stop_price w = Some p <-> item_0_1 (stop_loss (trading w)) = Ret p.
Proof.
  unfold stop_price.
  destruct (item_0_1 (stop_loss (trading w))); split; congruence.
Qed.

(** One tick of a long position with a stop in place: the call
    returns, and the stored stop is the old one or a strictly higher
    candidate. *)
Lemma long_tick_raises_stop (h : Env) (w : World) (p : Q) :
  is_long h = true ->
  stop_price w = Some p ->
  exists w' p',
    update_position h w = (Ret tt, w') /\
    stop_price (host_prepare w') = Some p' /\
    p <= p'.
Proof.
  intros L P.
  destruct (update_long_cases h w L) as [U|[(x & I & U)|(cur & I & C & U)]].
  - exists w, p. repeat split; auto using stop_price_kept. apply Qle_refl.
  - apply stop_price_read in P. congruence.
  - apply stop_price_read in P.
    assert (cur = p) by congruence. subst cur.
    exists (snd (set_stop_loss (Pair (qty (position h)) (long_candidate h)) w)),
           (long_candidate h).
    repeat split.
    + now rewrite U.
    + now apply Qlt_le_weak.
Qed.

Lemma short_tick_lowers_stop (h : Env) (w : World) (p : Q) :
  is_long h = false /\ is_short h = true ->
  stop_price w = Some p ->
  exists w' p',
    update_position h w = (Ret tt, w') /\
    stop_price (host_prepare w') = Some p' /\
    p' <= p.
Proof.
  intros [L S] P.
  destruct (update_short_cases h w L S)
    as [U|[(x & I & U)|(cur & I & C & U)]].
  - exists w, p. repeat split; auto using stop_price_kept. apply Qle_refl.
  - apply stop_price_read in P. congruence.
  - apply stop_price_read in P.
    assert (cur = p) by congruence. subst cur.
    exists (snd (set_stop_loss (Pair (qty (position h)) (short_candidate h)) w)),
           (short_candidate h).
    repeat split.
    + now rewrite U.
    + now apply Qlt_le_weak.
Qed.

(** Any per-tick order on the stop that is transitive extends to the
    whole run. *)
Section Runs.

Variable side : Env -> Prop.
Variable R : Q -> Q -> Prop.

Hypothesis R_trans : forall a b c, R a b -> R b c -> R a c.

Hypothesis tick :
  forall h w p,
    side h ->
    stop_price w = Some p ->
    exists w' p',
      update_position h w = (Ret tt, w') /\
      stop_price (host_prepare w') = Some p' /\
      R p p'.

Lemma run_is_ordered (hs : list Env) :
  forall w p,
    Forall side hs ->
    stop_price w = Some p ->
    exists ps,
      fst (run_updates hs w) = Ret tt /\
      stop_trace hs w = map Some ps /\
      List.length ps = List.length hs /\
      StronglySorted R (p :: ps).
Proof.
  induction hs as [|h rest IH]; intros w p F P.
  - exists []. repeat split. constructor; constructor.
  - inversion F as [|? ? Fh Frest]; subst.
    destruct (tick h w p Fh P) as (w' & p' & U & P' & Rpp).
    destruct (IH (host_prepare w') p' Frest P') as (ps & Run & Tr & Len & Srt).
    exists (p' :: ps). cbn [run_updates stop_trace]. rewrite U.
    repeat split.
    + exact Run.
    + rewrite P', Tr. reflexivity.
    + cbn. now rewrite Len.
    + constructor; [exact Srt|].
      constructor; [exact Rpp|].
      apply StronglySorted_inv in Srt. destruct Srt as [_ Fa].
      eapply Forall_impl; [|exact Fa].
      intros q Rq. now apply (R_trans p p' q).
Qed.

End Runs.

(** C2.  On a long position a call of [update_position] leaves the
    stop-loss as it was or replaces it by the candidate
    [price * (1 - trail_offset / 100)], and replaces it only when the
    candidate is strictly greater than the current stop price; over
    any sequence of calls on a long position with a stop in place,
    every call returns and the successive stop prices never decrease.
    On a short position the candidate is
    [price * (1 + trail_offset / 100)], it replaces the stop only when
    strictly lower, and the successive stop prices never increase. *)
Theorem trailing_stop_ratchet :
  (forall h w,
     is_long h = true ->
     stop_loss (trading (snd (update_position h w))) =
       stop_loss (trading w) \/
     exists cur,
       item_0_1 (stop_loss (trading w)) = Ret cur /\
       cur < long_candidate h /\
       stop_loss (trading (snd (update_position h w))) =
         Some (Pair (qty (position h)) (long_candidate h))) /\
  (forall hs w p,
     Forall (fun h => is_long h = true) hs ->
     stop_price w = Some p ->
     exists ps,
       fst (run_updates hs w) = Ret tt /\
       stop_trace hs w = map Some ps /\
       List.length ps = List.length hs /\
       StronglySorted Qle (p :: ps)) /\
  (forall h w,
     is_long h = false ->
     is_short h = true ->
     stop_loss (trading (snd (update_position h w))) =
       stop_loss (trading w) \/
     exists cur,
       item_0_1 (stop_loss (trading w)) = Ret cur /\
       short_candidate h < cur /\
       stop_loss (trading (snd (update_position h w))) =
         Some (Pair (qty (position h)) (short_candidate h))) /\
  (forall hs w p,
     Forall (fun h => is_long h = false /\ is_short h = true) hs ->
     stop_price w = Some p ->
     exists ps,
       fst (run_updates hs w) = Ret tt /\
       stop_trace hs w = map Some ps /\
       List.length ps = List.length hs /\
       StronglySorted (fun a b => b <= a) (p :: ps)).
Proof.
  split; [|split; [|split]].
  - intros h w L.
    destruct (update_long_cases h w L) as [U|[(x & I & U)|(cur & I & C & U)]].
    + left. now rewrite U.
    + left. now rewrite U.
    + right. exists cur. repeat split; try assumption. now rewrite U.
  - intros hs. apply run_is_ordered.
    + exact Qle_trans.
    + exact long_tick_raises_stop.
  - intros h w L S.
    destruct (update_short_cases h w L S)
      as [U|[(x & I & U)|(cur & I & C & U)]].
    + left. now rewrite U.
    + left. now rewrite U.
    + right. exists cur. repeat split; try assumption. now rewrite U.
  - intros hs. apply run_is_ordered.
    + intros a b c Hab Hbc. now apply (Qle_trans c b a).
    + exact short_tick_lowers_stop.
Qed.

End Trailing.

(** ** More on entries *)

Section EntryLevels.

Context {J : Jesse}.

(** Once the stop price is known, an entry writes its three instructions
    whatever the notification does afterwards. *)
Lemma go_long_writes (h : Env) (w : World) (sl : Q) :
  (if use_ema_sl (hp h) then index (ema_trend h) (-1)
   else Ret (price h - price h * sl_percent (hp h) / 100)) = Ret sl ->
  trading (snd (go_long h w)) =
  {| buy := Some (Pair (position_size h) (price h));
     sell := sell (trading w);
     take_profit :=
       Some (Pair (position_size h)
                  (price h + price h * tp_percent (hp h) / 100));
     stop_loss := Some (Pair (position_size h) sl);
     telegram_sent := telegram_sent (trading w) |}.
Proof.
  intros S. unfold go_long, mbind, lift. rewrite S. cbn.
  now rewrite notification_keeps_trading.
Qed.

Lemma go_short_writes (h : Env) (w : World) (sl : Q) :
  (if use_ema_sl (hp h) then index (ema_trend h) (-1)
   else Ret (price h + price h * sl_percent (hp h) / 100)) = Ret sl ->
  trading (snd (go_short h w)) =
  {| buy := buy (trading w);
     sell := Some (Pair (position_size h) (price h));
     take_profit :=
       Some (Pair (position_size h)
                  (price h - price h * tp_percent (hp h) / 100));
     stop_loss := Some (Pair (position_size h) sl);
     telegram_sent := telegram_sent (trading w) |}.
Proof.
  intros S. unfold go_short, mbind, lift. rewrite S. cbn.
  now rewrite notification_keeps_trading.
Qed.

Lemma index_empty (A : Type) (i : Z) : index (@nil A) i = Raise IndexError.
Proof.
  unfold index. cbn [List.length].
  destruct (Z.ltb_spec i 0) as [L|L].
  - destruct (Z.ltb_spec (Z.of_nat 0 + i) 0) as [L'|L']; [reflexivity|lia].
  - destruct (Z.ltb_spec i 0) as [L'|L']; [lia|].
    destruct (Z.leb_spec (Z.of_nat 0) i) as [G|G]; [reflexivity|lia].
Qed.

(** X1.  With the percent stop ([use_ema_sl] off), a positive price and
    positive [tp_percent] and [sl_percent], [go_long] puts the stop-loss
    strictly below the price and the take-profit strictly above it, and
    [go_short] puts the take-profit strictly below and the stop-loss
    strictly above. *)
Theorem percent_levels_bracket_price (h : Env) (w : World) :
  use_ema_sl (hp h) = false ->
  0 < price h ->
  0 < tp_percent (hp h) ->
  0 < sl_percent (hp h) ->
  (exists tp sl,
     take_profit (trading (snd (go_long h w))) =
       Some (Pair (position_size h) tp) /\
     stop_loss (trading (snd (go_long h w))) =
       Some (Pair (position_size h) sl) /\
     sl < price h /\ price h < tp) /\
  (exists tp sl,
     take_profit (trading (snd (go_short h w))) =
       Some (Pair (position_size h) tp) /\
     stop_loss (trading (snd (go_short h w))) =
       Some (Pair (position_size h) sl) /\
     tp < price h /\ price h < sl).
Proof.
  intros U P T S.
  assert (Tp : 0 < price h * tp_percent (hp h) / 100).
  { apply Qlt_shift_div_l; [reflexivity|]. rewrite Qmult_0_l.
    rewrite <- (Qmult_0_l (tp_percent (hp h))).
    apply Qmult_lt_compat_r; assumption. }
  assert (Sl : 0 < price h * sl_percent (hp h) / 100).
  { apply Qlt_shift_div_l; [reflexivity|]. rewrite Qmult_0_l.
    rewrite <- (Qmult_0_l (sl_percent (hp h))).
    apply Qmult_lt_compat_r; assumption. }
  split.
  - eexists. eexists.
    rewrite (go_long_writes h w (price h - price h * sl_percent (hp h) / 100))
      by now rewrite U.
    cbn. repeat split; lra.
  - eexists. eexists.
    rewrite (go_short_writes h w (price h + price h * sl_percent (hp h) / 100))
      by now rewrite U.
    cbn. repeat split; lra.
Qed.

(** X2.  Whenever the stop price can be computed, [go_long] writes the
    buy, take-profit and stop-loss instructions with the one quantity
    [position_size], with the take-profit at
    [price * (1 + tp_percent / 100)], and leaves the sell instruction and
    the notification flag alone, whether the notification then returns or
    raises; [go_short] does the same on the sell side with the
    take-profit at [price * (1 - tp_percent / 100)]. *)
Theorem entry_writes_three_instructions (h : Env) (w : World) :
  (forall sl,
     (if use_ema_sl (hp h) then index (ema_trend h) (-1)
      else Ret (price h - price h * sl_percent (hp h) / 100)) = Ret sl ->
     let t := trading (snd (go_long h w)) in
     buy t = Some (Pair (position_size h) (price h)) /\
     (exists tp, take_profit t = Some (Pair (position_size h) tp) /\
                 tp == price h * (1 + tp_percent (hp h) / 100)) /\
     stop_loss t = Some (Pair (position_size h) sl) /\
     sell t = sell (trading w) /\
     telegram_sent t = telegram_sent (trading w)) /\
  (forall sl,
     (if use_ema_sl (hp h) then index (ema_trend h) (-1)
      else Ret (price h + price h * sl_percent (hp h) / 100)) = Ret sl ->
     let t := trading (snd (go_short h w)) in
     sell t = Some (Pair (position_size h) (price h)) /\
     (exists tp, take_profit t = Some (Pair (position_size h) tp) /\
                 tp == price h * (1 - tp_percent (hp h) / 100)) /\
     stop_loss t = Some (Pair (position_size h) sl) /\
     buy t = buy (trading w) /\
     telegram_sent t = telegram_sent (trading w)).
Proof.
  split; intros sl S t; subst t.
  - rewrite (go_long_writes h w sl S). cbn.
    repeat split. eexists. split; [reflexivity|field].
  - rewrite (go_short_writes h w sl S). cbn.
    repeat split. eexists. split; [reflexivity|field].
Qed.

(** X3.  With the stop on the trend EMA and an empty trend series, both
    entries raise [IndexError] before writing anything: the world is
    left exactly as it was. *)
Theorem entry_without_trend_writes_nothing (h : Env) (w : World) :
  use_ema_sl (hp h) = true ->
  ema_trend h = [] ->
  go_long h w = (Raise IndexError, w) /\
  go_short h w = (Raise IndexError, w).
Proof.
  intros U E. unfold go_long, go_short, mbind, lift.
  rewrite U, E, index_empty. split; reflexivity.
Qed.

End EntryLevels.

(** ** More on the trailing stop *)

Section TrailingDetails.

Context {J : Jesse}.

Lemma active_long_iff (h : Env) :
  trailing_active_long h <->
  negb (use_trailing_stop (hp h)) = false /\
  Py.ge (price h)
    (entry_price (position h) * (1 + trail_activation (hp h) / 100)) = true.
Proof.
  unfold trailing_active_long. rewrite ge_iff.
  destruct (use_trailing_stop (hp h)); cbn; intuition congruence.
Qed.

Lemma active_short_iff (h : Env) :
  trailing_active_short h <->
  negb (use_trailing_stop (hp h)) = false /\
  Py.le (price h)
    (entry_price (position h) * (1 - trail_activation (hp h) / 100)) = true.
Proof.
  unfold trailing_active_short, Py.le. rewrite Qle_bool_iff.
  destruct (use_trailing_stop (hp h)); cbn; intuition congruence.
Qed.

(** What a call on a long position does, by cases on the activation. *)
Lemma update_long_exact (h : Env) (w : World) :
  is_long h = true ->
  (~ trailing_active_long h /\ update_position h w = (Ret tt, w)) \/
  (trailing_active_long h /\
   exists x,
     item_0_1 (stop_loss (trading w)) = Raise x /\
     update_position h w = (Raise x, w)) \/
  (trailing_active_long h /\
   exists cur,
     item_0_1 (stop_loss (trading w)) = Ret cur /\
     long_candidate h <= cur /\
     update_position h w = (Ret tt, w)) \/
  (trailing_active_long h /\
   exists cur,
     item_0_1 (stop_loss (trading w)) = Ret cur /\
     cur < long_candidate h /\
     update_position h w =
       set_stop_loss (Pair (qty (position h)) (long_candidate h)) w).
Proof.
  intros L. pose proof (active_long_iff h) as A.
  unfold update_position. rewrite L.
  destruct (negb (use_trailing_stop (hp h))).
  { left. split; [|reflexivity]. intros X. apply A in X. intuition congruence. }
  destruct (Py.ge (price h) _).
  2:{ left. split; [|reflexivity]. intros X. apply A in X. intuition congruence. }
  assert (Act : trailing_active_long h) by (apply A; split; reflexivity).
  right. unfold mbind, lift.
  destruct (item_0_1 (stop_loss (trading w))) as [cur|x] eqn:I.
  - destruct (Py.gt (long_candidate h) cur) eqn:G.
    + right; right. split; [assumption|]. exists cur.
      apply gt_iff in G. now repeat split.
    + right; left. split; [assumption|]. exists cur.
      apply gt_false_iff in G. now repeat split.
  - left. split; [assumption|]. now exists x.
Qed.

Lemma update_short_exact (h : Env) (w : World) :
  is_long h = false ->
  is_short h = true ->
  (~ trailing_active_short h /\ update_position h w = (Ret tt, w)) \/
  (trailing_active_short h /\
   exists x,
     item_0_1 (stop_loss (trading w)) = Raise x /\
     update_position h w = (Raise x, w)) \/
  (trailing_active_short h /\
   exists cur,
     item_0_1 (stop_loss (trading w)) = Ret cur /\
     cur <= short_candidate h /\
     update_position h w = (Ret tt, w)) \/
  (trailing_active_short h /\
   exists cur,
     item_0_1 (stop_loss (trading w)) = Ret cur /\
     short_candidate h < cur /\
     update_position h w =
       set_stop_loss (Pair (qty (position h)) (short_candidate h)) w).
Proof.
  intros L S. pose proof (active_short_iff h) as A.
  unfold update_position. rewrite L, S.
  destruct (negb (use_trailing_stop (hp h))).
  { left. split; [|reflexivity]. intros X. apply A in X. intuition congruence. }
  destruct (Py.le (price h) _).
  2:{ left. split; [|reflexivity]. intros X. apply A in X. intuition congruence. }
  assert (Act : trailing_active_short h) by (apply A; split; reflexivity).
  right. unfold mbind, lift.
  destruct (item_0_1 (stop_loss (trading w))) as [cur|x] eqn:I.
  - destruct (Py.lt (short_candidate h) cur) eqn:G.
    + right; right. split; [assumption|]. exists cur.
      apply lt_iff in G. now repeat split.
    + right; left. split; [assumption|]. exists cur.
      apply lt_false_iff in G. now repeat split.
  - left. split; [assumption|]. now exists x.
Qed.

Lemma update_flat (h : Env) (w : World) :
  is_long h = false -> is_short h = false ->
  update_position h w = (Ret tt, w).
Proof.
  intros L S. unfold update_position. rewrite L, S.
  now destruct (negb (use_trailing_stop (hp h))).
Qed.

(** X4.  [update_position] returns at once, without reading the stop-loss
    and without changing anything, when the trailing stop is switched
    off, when the position is neither long nor short, and while the price
    has not reached the activation price of the side held; this holds
    even when no stop-loss was ever set. *)
Theorem update_position_idle (h : Env) (w : World) :
  use_trailing_stop (hp h) = false \/
  (is_long h = false /\ is_short h = false) \/
  (is_long h = true /\
   price h < entry_price (position h) * (1 + trail_activation (hp h) / 100)) \/
  (is_long h = false /\ is_short h = true /\
   entry_price (position h) * (1 - trail_activation (hp h) / 100) < price h) ->
  update_position h w = (Ret tt, w).
Proof.
  intros [U|[[L S]|[[L B]|(L & S & B)]]].
  - unfold update_position. now rewrite U.
  - now apply update_flat.
  - destruct (update_long_exact h w L)
      as [[_ E]|[[A _]|[[A _]|[A _]]]]; try assumption;
      destruct A as [_ A]; exfalso; apply (Qlt_not_le _ _ B A).
  - destruct (update_short_exact h w L S)
      as [[_ E]|[[A _]|[[A _]|[A _]]]]; try assumption;
      destruct A as [_ A]; exfalso; apply (Qlt_not_le _ _ B A).
Qed.

(** X5.  Once the trailing stop is active for the side held, a call
    reads the current stop-loss before anything else: with no stop-loss
    set it raises [TypeError], with an empty array of rows it raises
    [IndexError], and in both cases nothing is changed. *)
Theorem update_position_needs_stored_stop (h : Env) (w : World) :
  (is_long h = true /\ trailing_active_long h) \/
  (is_long h = false /\ is_short h = true /\ trailing_active_short h) ->
  (stop_loss (trading w) = None ->
   update_position h w = (Raise TypeError, w)) /\
  (stop_loss (trading w) = Some (Rows []) ->
   update_position h w = (Raise IndexError, w)).
Proof.
  intros Side.
  assert (R : forall x, item_0_1 (stop_loss (trading w)) = Raise x ->
                        update_position h w = (Raise x, w)).
  { intros x I.
    destruct Side as [[L A]|(L & S & A)].
    - destruct (update_long_exact h w L)
        as [[N _]|[(_ & y & Iy & U)|[(_ & c & Ic & _)|(_ & c & Ic & _)]]];
        [contradiction|congruence|congruence|congruence].
    - destruct (update_short_exact h w L S)
        as [[N _]|[(_ & y & Iy & U)|[(_ & c & Ic & _)|(_ & c & Ic & _)]]];
        [contradiction|congruence|congruence|congruence]. }
  split.
  - intros N. apply R. now rewrite N.
  - intros E. apply R. now rewrite E.
Qed.

(** X6.  On a long position whose stop-loss price reads [cur],
    [update_position] assigns the candidate exactly when the trailing
    stop is switched on, the price is at least the activation price
    (the bound included) and the candidate is strictly above [cur]; in
    every other case it returns with the world unchanged.  On a short
    position the same holds with the price at most the activation price
    and the candidate strictly below [cur]. *)
Theorem update_position_replaces_exactly (h : Env) (w : World) (cur : Q) :
  item_0_1 (stop_loss (trading w)) = Ret cur ->
  (is_long h = true ->
   (trailing_active_long h /\ cur < long_candidate h ->
    update_position h w =
      set_stop_loss (Pair (qty (position h)) (long_candidate h)) w) /\
   (~ (trailing_active_long h /\ cur < long_candidate h) ->
    update_position h w = (Ret tt, w))) /\
  (is_long h = false -> is_short h = true ->
   (trailing_active_short h /\ short_candidate h < cur ->
    update_position h w =
      set_stop_loss (Pair (qty (position h)) (short_candidate h)) w) /\
   (~ (trailing_active_short h /\ short_candidate h < cur) ->
    update_position h w = (Ret tt, w))).
Proof.
  intros I. split.
  - intros L.
    destruct (update_long_exact h w L)
      as [[N U]|[(A & y & Iy & U)|[(A & c & Ic & C & U)|(A & c & Ic & C & U)]]].
    + split; [intros [A _]; contradiction|trivial].
    + congruence.
    + assert (c = cur) by congruence. subst c.
      split; [|trivial]. intros [_ X]. exfalso. apply (Qlt_not_le _ _ X C).
    + assert (c = cur) by congruence. subst c.
      split; [trivial|]. intros N. exfalso. apply N. now split.
  - intros L S.
    destruct (update_short_exact h w L S)
      as [[N U]|[(A & y & Iy & U)|[(A & c & Ic & C & U)|(A & c & Ic & C & U)]]].
    + split; [intros [A _]; contradiction|trivial].
    + congruence.
    + assert (c = cur) by congruence. subst c.
      split; [|trivial]. intros [_ X]. exfalso. apply (Qlt_not_le _ _ X C).
    + assert (c = cur) by congruence. subst c.
      split; [trivial|]. intros N. exfalso. apply N. now split.
Qed.

(** A call changes nothing, or only the stop-loss instruction. *)
Lemma update_position_effect (h : Env) (w : World) :
  snd (update_position h w) = w \/
  exists i, snd (update_position h w) = snd (set_stop_loss i w).
Proof.
  destruct (is_long h) eqn:L.
  - destruct (update_long_cases h w L) as [U|[(x & _ & U)|(c & _ & _ & U)]];
      rewrite U; [now left|now left|right; eauto].
  - destruct (is_short h) eqn:S.
    + destruct (update_short_cases h w L S)
        as [U|[(x & _ & U)|(c & _ & _ & U)]];
        rewrite U; [now left|now left|right; eauto].
    + rewrite (update_flat h w L S). now left.
Qed.

(** X7.  [update_position] never touches anything but the stop-loss: the
    buy, sell and take-profit instructions, the notification flag, the
    list of posted requests and the console are the same after the call
    as before, whether it returns or raises. *)
Theorem update_position_only_moves_stop (h : Env) (w : World) :
  let w' := snd (update_position h w) in
  buy (trading w') = buy (trading w) /\
  sell (trading w') = sell (trading w) /\
  take_profit (trading w') = take_profit (trading w) /\
  telegram_sent (trading w') = telegram_sent (trading w) /\
  posted w' = posted w /\
  console w' = console w.
Proof.
  cbv zeta.
  destruct (update_position_effect h w) as [E|[i E]]; rewrite E;
    repeat split.
Qed.

End TrailingDetails.

(** ** The ratchet over a run *)

Section Ratchet.

Context {J : Jesse}.

Lemma formatted_twice (i : Instruction) : formatted (formatted i) = formatted i.
Proof. now destruct i. Qed.

Lemma host_prepare_twice (w : World) :
  host_prepare (host_prepare w) = host_prepare w.
Proof.
  unfold host_prepare. cbn. f_equal. f_equal;
    match goal with
    | |- option_map _ (option_map _ ?x) = _ =>
        destruct x; cbn; [now rewrite formatted_twice|reflexivity]
    end.
Qed.

(** Percentages of a price. *)
Lemma percent_positive (o : Q) : 0 < o -> 0 < o / 100.
Proof. intros O. apply Qmult_lt_0_compat; [assumption|reflexivity]. Qed.

Lemma percent_at_most_one (o : Q) : o <= 100 -> o / 100 <= 1.
Proof.
  intros O. apply Qle_shift_div_r; [reflexivity|]. now rewrite Qmult_1_l.
Qed.

Lemma scaled_down (x o : Q) : 0 < x -> 0 < o -> x * (1 - o / 100) < x.
Proof.
  intros X O. pose proof (percent_positive o O) as P.
  rewrite <- (Qmult_1_r x) at 2. apply Qmult_lt_l; [assumption|lra].
Qed.

Lemma scaled_up (x o : Q) : 0 < x -> 0 < o -> x < x * (1 + o / 100).
Proof.
  intros X O. pose proof (percent_positive o O) as P.
  rewrite <- (Qmult_1_r x) at 1. apply Qmult_lt_l; [assumption|lra].
Qed.

Lemma long_lock (x o a e : Q) :
  0 < o <= 100 -> 0 <= e -> e * (1 + a / 100) <= x ->
  1 <= (1 + a / 100) * (1 - o / 100) -> e <= x * (1 - o / 100).
Proof.
  intros [O O1] E A B.
  pose proof (percent_at_most_one o O1) as P.
  assert (K : 0 <= 1 - o / 100) by lra.
  assert (S1 : e * (1 + a / 100) * (1 - o / 100) <= x * (1 - o / 100))
    by (apply Qmult_le_compat_r; assumption).
  assert (S2 : 1 * e <= (1 + a / 100) * (1 - o / 100) * e)
    by (apply Qmult_le_compat_r; assumption).
  rewrite Qmult_1_l in S2.
  rewrite (Qmult_comm _ e), Qmult_assoc in S2.
  eapply Qle_trans; eassumption.
Qed.

Lemma short_lock (x o a e : Q) :
  0 < o -> 0 <= e -> x <= e * (1 - a / 100) ->
  (1 - a / 100) * (1 + o / 100) <= 1 -> x * (1 + o / 100) <= e.
Proof.
  intros O E A B.
  pose proof (percent_positive o O) as P.
  assert (K : 0 <= 1 + o / 100) by lra.
  assert (S1 : x * (1 + o / 100) <= e * (1 - a / 100) * (1 + o / 100))
    by (apply Qmult_le_compat_r; assumption).
  assert (S2 : (1 - a / 100) * (1 + o / 100) * e <= 1 * e)
    by (apply Qmult_le_compat_r; assumption).
  rewrite Qmult_1_l in S2.
  rewrite (Qmult_comm _ e), Qmult_assoc in S2.
  eapply Qle_trans; eassumption.
Qed.

(** X8.  When a call replaces the stop-loss of a long position (positive
    price, [trail_offset] between 0 and 100, entry price not negative),
    the new stop is strictly below the current price, and it is at least
    the entry price as soon as
    [(1 + trail_activation / 100) * (1 - trail_offset / 100) >= 1].  For
    a short position the new stop is strictly above the price, and at
    most the entry price as soon as
    [(1 - trail_activation / 100) * (1 + trail_offset / 100) <= 1]. *)
Theorem replaced_stop_locks_profit (h : Env) (w : World) (p p' : Q) :
  stop_price w = Some p ->
  stop_price (host_prepare (snd (update_position h w))) = Some p' ->
  ~ p' == p ->
  0 < price h ->
  0 < trail_offset (hp h) <= 100 ->
  0 <= entry_price (position h) ->
  (is_long h = true ->
   p' < price h /\
   (1 <= (1 + trail_activation (hp h) / 100) * (1 - trail_offset (hp h) / 100) ->
    entry_price (position h) <= p')) /\
  (is_long h = false -> is_short h = true ->
   price h < p' /\
   ((1 - trail_activation (hp h) / 100) * (1 + trail_offset (hp h) / 100) <= 1 ->
    p' <= entry_price (position h))).
Proof.
  intros P P' Ne Pr [O0 O1] En.
  assert (Same : snd (update_position h w) = w -> False).
  { intros E. rewrite E, (stop_price_kept w p P) in P'.
    apply Ne. injection P' as <-. apply Qeq_refl. }
  split.
  - intros L.
    destruct (update_long_exact h w L)
      as [[_ U]|[(_ & y & _ & U)|[(_ & c & _ & _ & U)|(A & c & _ & _ & U)]]];
      try (exfalso; apply Same; now rewrite U).
    rewrite U, stop_price_assigned in P'. injection P' as <-.
    destruct A as [_ A]. unfold long_candidate.
    split; [now apply scaled_down|].
    intros B. apply (long_lock _ _ (trail_activation (hp h))); auto.
  - intros L S.
    destruct (update_short_exact h w L S)
      as [[_ U]|[(_ & y & _ & U)|[(_ & c & _ & _ & U)|(A & c & _ & _ & U)]]];
      try (exfalso; apply Same; now rewrite U).
    rewrite U, stop_price_assigned in P'. injection P' as <-.
    destruct A as [_ A]. unfold short_candidate.
    split; [now apply scaled_up|].
    intros B. apply (short_lock _ _ (trail_activation (hp h))); auto.
Qed.

(** X9.  A second call of [update_position] with the same inputs, after
    the host has stored the result of the first, changes nothing: per
    tick the update is idempotent, for a long, a short or no position. *)
Theorem update_position_is_idempotent (h : Env) (w0 : World) :
  let w1 := host_prepare (snd (update_position h (host_prepare w0))) in
  snd (update_position h w1) = w1 /\ host_prepare w1 = w1.
Proof.
  cbv zeta. split; [|apply host_prepare_twice].
  set (w := host_prepare w0).
  assert (Keep : snd (update_position h w) = w ->
                 snd (update_position h
                        (host_prepare (snd (update_position h w)))) =
                 host_prepare (snd (update_position h w))).
  { intros E. rewrite E. unfold w. rewrite host_prepare_twice.
    fold w. exact E. }
  destruct (is_long h) eqn:L; [|destruct (is_short h) eqn:S].
  - destruct (update_long_exact h w L)
      as [[_ U]|[(_ & y & _ & U)|[(_ & c & _ & _ & U)|(A & c & _ & _ & U)]]];
      try (apply Keep; now rewrite U).
    rewrite U.
    set (w1 := host_prepare (snd (set_stop_loss _ w))).
    destruct (update_long_exact h w1 L)
      as [[_ V]|[(_ & y & _ & V)|[(_ & d & _ & _ & V)|(_ & d & I & D & V)]]];
      try (now rewrite V).
    exfalso. cbn in I. injection I as <-. apply (Qlt_irrefl _ D).
  - destruct (update_short_exact h w L S)
      as [[_ U]|[(_ & y & _ & U)|[(_ & c & _ & _ & U)|(A & c & _ & _ & U)]]];
      try (apply Keep; now rewrite U).
    rewrite U.
    set (w1 := host_prepare (snd (set_stop_loss _ w))).
    destruct (update_short_exact h w1 L S)
      as [[_ V]|[(_ & y & _ & V)|[(_ & d & _ & _ & V)|(_ & d & I & D & V)]]];
      try (now rewrite V).
    exfalso. cbn in I. injection I as <-. apply (Qlt_irrefl _ D).
  - apply Keep. now rewrite (update_flat h w L S).
Qed.

(** One tick of a long position, with the bounds the new stop meets. *)
Lemma long_tick_is_max (h : Env) (w : World) (p : Q) :
  is_long h = true ->
  stop_price w = Some p ->
  exists w' p',
    update_position h w = (Ret tt, w') /\
    stop_price (host_prepare w') = Some p' /\
    p <= p' /\
    (trailing_active_long h -> long_candidate h <= p') /\
    (p' = p \/ (trailing_active_long h /\ p' = long_candidate h)).
Proof.
  intros L P. pose proof (proj1 (stop_price_read w p) P) as I.
  destruct (update_long_exact h w L)
    as [[N U]|[(_ & y & Iy & U)|[(A & c & Ic & C & U)|(A & c & Ic & C & U)]]].
  - exists w, p. repeat split; auto using stop_price_kept, Qle_refl.
    intros A. contradiction.
  - congruence.
  - assert (c = p) by congruence. subst c.
    exists w, p. repeat split; auto using stop_price_kept, Qle_refl.
  - assert (c = p) by congruence. subst c.
    exists (snd (set_stop_loss (Pair (qty (position h)) (long_candidate h)) w)),
           (long_candidate h).
    repeat split; auto using Qle_refl, Qlt_le_weak.
Qed.

Lemma short_tick_is_min (h : Env) (w : World) (p : Q) :
  is_long h = false /\ is_short h = true ->
  stop_price w = Some p ->
  exists w' p',
    update_position h w = (Ret tt, w') /\
    stop_price (host_prepare w') = Some p' /\
    p' <= p /\
    (trailing_active_short h -> p' <= short_candidate h) /\
    (p' = p \/ (trailing_active_short h /\ p' = short_candidate h)).
Proof.
  intros [L S] P. pose proof (proj1 (stop_price_read w p) P) as I.
  destruct (update_short_exact h w L S)
    as [[N U]|[(_ & y & Iy & U)|[(A & c & Ic & C & U)|(A & c & Ic & C & U)]]].
  - exists w, p. repeat split; auto using stop_price_kept, Qle_refl.
    intros A. contradiction.
  - congruence.
  - assert (c = p) by congruence. subst c.
    exists w, p. repeat split; auto using stop_price_kept, Qle_refl.
  - assert (c = p) by congruence. subst c.
    exists (snd (set_stop_loss (Pair (qty (position h)) (short_candidate h)) w)),
           (short_candidate h).
    repeat split; auto using Qle_refl, Qlt_le_weak.
Qed.

(** The bound of one tick carried through a run, for either side: [R] is
    the order in which the stop moves. *)
Section Extremum.

Variable side : Env -> Prop.
Variable active : Env -> Prop.
Variable candidate : Env -> Q.
Variable R : Q -> Q -> Prop.

Hypothesis R_refl : forall a, R a a.
Hypothesis R_trans : forall a b c, R a b -> R b c -> R a c.

Hypothesis tick :
  forall h w p,
    side h ->
    stop_price w = Some p ->
    exists w' p',
      update_position h w = (Ret tt, w') /\
      stop_price (host_prepare w') = Some p' /\
      R p p' /\
      (active h -> R (candidate h) p') /\
      (p' = p \/ (active h /\ p' = candidate h)).

Lemma run_reaches_extremum (hs : list Env) :
  forall w p,
    Forall side hs ->
    stop_price w = Some p ->
    exists w' p',
      run_updates hs w = (Ret tt, w') /\
      stop_price w' = Some p' /\
      R p p' /\
      (forall h, In h hs -> active h -> R (candidate h) p') /\
      (p' = p \/ exists h, In h hs /\ active h /\ p' = candidate h).
Proof.
  induction hs as [|h rest IH]; intros w p F P.
  - exists w, p. repeat split; auto. intros h [].
  - inversion F as [|? ? Fh Frest]; subst.
    destruct (tick h w p Fh P) as (w1 & p1 & U & P1 & R1 & C1 & O1).
    destruct (IH (host_prepare w1) p1 Frest P1)
      as (w2 & p2 & Run & P2 & R2 & C2 & O2).
    exists w2, p2. cbn [run_updates]. rewrite U. repeat split; auto.
    + now apply (R_trans p p1 p2).
    + intros k [<-|K] A.
      * apply (R_trans (candidate h) p1 p2); auto.
      * now apply C2.
    + destruct O2 as [->|(k & K & A & E)].
      * destruct O1 as [->|[A E]]; [now left|].
        right. exists h. repeat split; auto. now left.
      * right. exists k. repeat split; auto. now right.
Qed.

End Extremum.

(** X10.  Over any run of ticks on a long position that starts with a
    stop-loss price [p], every call returns and the final stop is the
    running maximum of [p] and the candidates of the ticks on which the
    trailing stop was active: it is at least [p], at least each such
    candidate, and equal to [p] or to one of them.  On a short position
    it is the running minimum. *)
Theorem final_stop_is_running_extremum (hs : list Env) (w : World) (p : Q) :
  stop_price w = Some p ->
  (Forall (fun h => is_long h = true) hs ->
   exists w' p',
     run_updates hs w = (Ret tt, w') /\
     stop_price w' = Some p' /\
     p <= p' /\
     (forall h, In h hs -> trailing_active_long h -> long_candidate h <= p') /\
     (p' = p \/
      exists h, In h hs /\ trailing_active_long h /\ p' = long_candidate h)) /\
  (Forall (fun h => is_long h = false /\ is_short h = true) hs ->
   exists w' p',
     run_updates hs w = (Ret tt, w') /\
     stop_price w' = Some p' /\
     p' <= p /\
     (forall h, In h hs -> trailing_active_short h -> p' <= short_candidate h) /\
     (p' = p \/
      exists h, In h hs /\ trailing_active_short h /\ p' = short_candidate h)).
Proof.
  intros P. split; intros F.
  - apply (run_reaches_extremum
             (fun h => is_long h = true) trailing_active_long long_candidate
             Qle); auto using Qle_refl.
    + exact Qle_trans.
    + exact long_tick_is_max.
  - apply (run_reaches_extremum
             (fun h => is_long h = false /\ is_short h = true)
             trailing_active_short short_candidate
             (fun a b => b <= a)); auto using Qle_refl.
    + intros a b c Hab Hbc. now apply (Qle_trans c b a).
    + exact short_tick_is_min.
Qed.

End Ratchet.

(** ** More on notifications *)

Section NotificationDetails.

Context {J : Jesse}.

Local Open Scope string_scope.

Lemma truthy_false_iff (s : string) : truthy s = false <-> s = "".
Proof. destruct s; cbn; split; congruence. Qed.

(** X11.  When either credential is empty (the token or the chat id),
    [send_telegram_notification] and [on_close_position] return at once
    and leave the world unchanged: no message is built, nothing is
    posted, nothing is printed. *)
Theorem missing_credential_sends_nothing (h : Env) (w : World) :
  telegram_token (hp h) = "" \/ telegram_chat_id (hp h) = "" ->
  (forall side tp sl,
     send_telegram_notification h side tp sl w = (Ret tt, w)) /\
  on_close_position h w = (Ret tt, w).
Proof.
  intros E.
  assert (G : (negb (truthy (telegram_token (hp h))) ||
               negb (truthy (telegram_chat_id (hp h))))%bool = true).
  { destruct E as [E|E]; rewrite E; cbn; [reflexivity|].
    now destruct (truthy (telegram_token (hp h))). }
  split.
  - intros. unfold send_telegram_notification. now rewrite G.
  - unfold on_close_position. now rewrite G.
Qed.

(** X12.  With both credentials set and a network that answers, each
    sender returns normally after exactly one POST: the request goes to
    [https://api.telegram.org/bot<token>/sendMessage] with the chat id,
    the message as text, parse mode [HTML] and a timeout of 5; the
    instructions and the console are unchanged. *)
Theorem delivered_notification (h : Env) (w : World) :
  truthy (telegram_token (hp h)) = true ->
  truthy (telegram_chat_id (hp h)) = true ->
  (forall side tp sl message,
     entry_message h side tp sl = Ret message ->
     let request :=
       {| url := "https://api.telegram.org/bot" ++ telegram_token (hp h)
                 ++ "/sendMessage";
          chat_id := telegram_chat_id (hp h);
          text := message;
          parse_mode := "HTML";
          timeout := 5 |} in
     requests_post h request = Ret tt ->
     send_telegram_notification h side tp sl w =
       (Ret tt, {| trading := trading w;
                   posted := (posted w ++ [request])%list;
                   console := console w |})) /\
  (let request :=
     {| url := "https://api.telegram.org/bot" ++ telegram_token (hp h)
               ++ "/sendMessage";
        chat_id := telegram_chat_id (hp h);
        text := close_message h;
        parse_mode := "HTML";
        timeout := 5 |} in
   requests_post h request = Ret tt ->
   on_close_position h w =
     (Ret tt, {| trading := trading w;
                 posted := (posted w ++ [request])%list;
                 console := console w |})).
Proof.
  intros T C. split.
  - intros side tp sl message M request F.
    unfold send_telegram_notification. rewrite T, C. cbn [negb orb].
    unfold mbind, lift, try_except, post. rewrite M.
    change (telegram_request (telegram_token (hp h))
              (telegram_chat_id (hp h)) message) with request.
    now rewrite F.
  - intros request F.
    unfold on_close_position. rewrite T, C. cbn [negb orb].
    unfold try_except, post.
    change (telegram_request (telegram_token (hp h))
              (telegram_chat_id (hp h)) (close_message h)) with request.
    now rewrite F.
Qed.

(** X13.  The entry message is built outside the [try]: with both
    credentials set, an exception raised while reading the indicators
    for the message leaves [send_telegram_notification] as it is,
    nothing is posted and nothing is printed.  In particular on a window
    without bars the sender raises [IndexError], and [go_long] with the
    percent stop raises it after having written its three
    instructions. *)
Theorem message_failure_escapes (h : Env) (w : World) :
  truthy (telegram_token (hp h)) = true ->
  truthy (telegram_chat_id (hp h)) = true ->
  (forall side tp sl x,
     entry_message h side tp sl = Raise x ->
     send_telegram_notification h side tp sl w = (Raise x, w)) /\
  (candles h = [] ->
   (forall side tp sl,
      send_telegram_notification h side tp sl w = (Raise IndexError, w)) /\
   (use_ema_sl (hp h) = false ->
    fst (go_long h w) = Raise IndexError /\
    posted (snd (go_long h w)) = posted w /\
    console (snd (go_long h w)) = console w /\
    stop_loss (trading (snd (go_long h w))) =
      Some (Pair (position_size h)
                 (price h - price h * sl_percent (hp h) / 100)%Q))).
Proof.
  intros T C.
  assert (S : forall side tp sl x w0,
            entry_message h side tp sl = Raise x ->
            send_telegram_notification h side tp sl w0 = (Raise x, w0)).
  { intros side tp sl x w0 M.
    unfold send_telegram_notification. rewrite T, C. cbn [negb orb].
    unfold mbind, lift. now rewrite M. }
  split; [intros; now apply S|].
  intros E.
  assert (M : forall side tp sl, entry_message h side tp sl = Raise IndexError).
  { intros. unfold entry_message, current_volume.
    now rewrite E, index_empty. }
  split; [intros; apply S, M|].
  intros U. unfold go_long, mbind, lift. rewrite U. cbn.
  rewrite (S _ _ _ _ _ (M _ _ _)). cbn. repeat split.
Qed.

(** What any invocation does to the records of the outside world. *)
Lemma sender_appends (h : Env) (side : string) (tp sl : Q) (w : World) :
  exists rs ls,
    posted (snd (send_telegram_notification h side tp sl w)) =
      (posted w ++ rs)%list /\
    console (snd (send_telegram_notification h side tp sl w)) =
      (console w ++ ls)%list /\
    (List.length ls <= List.length rs <= 1)%nat.
Proof.
  unfold send_telegram_notification.
  destruct (negb _ || negb _)%bool.
  { exists [], []. cbn. rewrite !app_nil_r. auto. }
  unfold mbind, lift, try_except, post, print.
  destruct (entry_message h side tp sl) as [m|x].
  2:{ exists [], []. cbn. rewrite !app_nil_r. auto. }
  destruct (requests_post h _).
  - eexists [_], []. cbn. rewrite app_nil_r. auto.
  - eexists [_], [_]. cbn. auto.
Qed.

Lemma close_appends (h : Env) (w : World) :
  exists rs ls,
    posted (snd (on_close_position h w)) = (posted w ++ rs)%list /\
    console (snd (on_close_position h w)) = (console w ++ ls)%list /\
    (List.length ls <= List.length rs <= 1)%nat.
Proof.
  unfold on_close_position.
  destruct (negb _ || negb _)%bool.
  { exists [], []. cbn. rewrite !app_nil_r. auto. }
  unfold try_except, post, print.
  destruct (requests_post h _).
  - eexists [_], []. cbn. rewrite app_nil_r. auto.
  - eexists [_], [_]. cbn. auto.
Qed.

(** X14.  No invocation ever retries or rewrites history: each of
    [go_long], [go_short], [update_position], [on_open_position],
    [on_close_position] and [send_telegram_notification] keeps the
    requests and console lines already recorded and adds at most one
    request, and a console line only after an attempted request;
    [update_position] and [on_open_position] add none. *)
Theorem at_most_one_post (c : Callback) (h : Env) (w : World) :
  exists rs ls,
    posted (snd (call c h w)) = (posted w ++ rs)%list /\
    console (snd (call c h w)) = (console w ++ ls)%list /\
    (List.length ls <= List.length rs <= 1)%nat /\
    (c = UpdatePosition \/ c = OnOpenPosition -> rs = [] /\ ls = []).
Proof.
  assert (None : forall w', posted w' = posted w -> console w' = console w ->
            exists rs ls,
              posted w' = (posted w ++ rs)%list /\
              console w' = (console w ++ ls)%list /\
              (List.length ls <= List.length rs <= 1)%nat /\
              (c = UpdatePosition \/ c = OnOpenPosition -> rs = [] /\ ls = [])).
  { intros w' P C. exists [], []. rewrite !app_nil_r. cbn. auto 6. }
  assert (Other : forall w', c <> UpdatePosition -> c <> OnOpenPosition ->
            (exists rs ls,
               posted w' = (posted w ++ rs)%list /\
               console w' = (console w ++ ls)%list /\
               (List.length ls <= List.length rs <= 1)%nat) ->
            exists rs ls,
              posted w' = (posted w ++ rs)%list /\
              console w' = (console w ++ ls)%list /\
              (List.length ls <= List.length rs <= 1)%nat /\
              (c = UpdatePosition \/ c = OnOpenPosition -> rs = [] /\ ls = [])).
  { intros w' N1 N2 (rs & ls & P & C & B). exists rs, ls.
    split; [exact P|split; [exact C|split; [exact B|]]].
    intros [E|E]; contradiction. }
  destruct c; cbn [call].
  - apply Other; try discriminate.
    unfold go_long, mbind, lift.
    destruct (if use_ema_sl (hp h) then _ else _) as [sl|x].
    + cbn. exact (sender_appends h _ _ _ _).
    + exists [], []. cbn. rewrite !app_nil_r. auto.
  - apply Other; try discriminate.
    unfold go_short, mbind, lift.
    destruct (if use_ema_sl (hp h) then _ else _) as [sl|x].
    + cbn. exact (sender_appends h _ _ _ _).
    + exists [], []. cbn. rewrite !app_nil_r. auto.
  - apply None; apply (update_position_only_moves_stop h w).
  - apply None; reflexivity.
  - apply Other; try discriminate. apply close_appends.
  - apply Other; try discriminate. apply sender_appends.
Qed.

End NotificationDetails.

(** ** The network and the flag *)

Section Isolation.

Context {J : Jesse}.

Lemma close_keeps_trading (h : Env) (w : World) :
  fst (on_close_position h w) = Ret tt /\
  trading (snd (on_close_position h w)) = trading w.
Proof.
  unfold on_close_position.
  destruct (negb _ || negb _)%bool; [now split|].
  unfold try_except, post, print.
  destruct (requests_post h _) as [[]|x]; now split.
Qed.

(** The outcome of the entry sender is decided by the credentials and
    the message alone. *)
Lemma sender_outcome (h : Env) (side : string) (tp sl : Q) (w : World) :
  fst (send_telegram_notification h side tp sl w) =
  if (negb (truthy (telegram_token (hp h))) ||
      negb (truthy (telegram_chat_id (hp h))))%bool then Ret tt
  else match entry_message h side tp sl with
       | Ret _ => Ret tt
       | Raise x => Raise x
       end.
Proof.
  unfold send_telegram_notification.
  destruct (negb _ || negb _)%bool; [reflexivity|].
  unfold mbind, lift, try_except, post, print.
  destruct (entry_message h side tp sl); [|reflexivity].
  destruct (requests_post h _) as [[]|x]; reflexivity.
Qed.

Lemma count_back_network (net : Request -> outcome unit) (h : Env) (n : nat) :
  forall count,
    count_back (with_network net h) n count = count_back h n count.
Proof.
  induction n as [|i IH]; intros count; [reflexivity|].
  cbn [count_back].
  change (candles (with_network net h)) with (candles h).
  change (ema_volume (with_network net h)) with (ema_volume h).
  destruct (index (candles h) (Z.of_nat i)) as [c|]; [|reflexivity].
  destruct (index (ema_volume h) (Z.of_nat i)) as [e|]; [|reflexivity].
  cbn [Py.bind]. now rewrite IH.
Qed.

Lemma entry_message_network (net : Request -> outcome unit) (h : Env)
    (side : string) (tp sl : Q) :
  entry_message (with_network net h) side tp sl = entry_message h side tp sl.
Proof.
  unfold entry_message, consecutive_volume_bars.
  rewrite count_back_network. reflexivity.
Qed.

Lemma sender_ignores_network (net : Request -> outcome unit) (h : Env)
    (side : string) (tp sl : Q) (w : World) :
  fst (send_telegram_notification (with_network net h) side tp sl w) =
    fst (send_telegram_notification h side tp sl w) /\
  trading (snd (send_telegram_notification (with_network net h) side tp sl w)) =
    trading (snd (send_telegram_notification h side tp sl w)).
Proof.
  split.
  - rewrite !sender_outcome, entry_message_network. reflexivity.
  - now rewrite !notification_keeps_trading.
Qed.

(** X15.  What the network answers never reaches the decisions: for
    every invocation, the value returned or the exception raised and the
    instructions left behind are the same over any two networks. *)
Theorem network_cannot_change_trading (c : Callback)
    (net : Request -> outcome unit) (h : Env) (w : World) :
  fst (call c (with_network net h) w) = fst (call c h w) /\
  trading (snd (call c (with_network net h) w)) =
    trading (snd (call c h w)).
Proof.
  destruct c; cbn [call].
  - unfold go_long, mbind, lift.
    change (hp (with_network net h)) with (hp h).
    change (ema_trend (with_network net h)) with (ema_trend h).
    change (price (with_network net h)) with (price h).
    change (position_size (with_network net h)) with (position_size h).
    destruct (if use_ema_sl (hp h) then _ else _) as [sl|x]; [|now split].
    cbn. apply sender_ignores_network.
  - unfold go_short, mbind, lift.
    change (hp (with_network net h)) with (hp h).
    change (ema_trend (with_network net h)) with (ema_trend h).
    change (price (with_network net h)) with (price h).
    change (position_size (with_network net h)) with (position_size h).
    destruct (if use_ema_sl (hp h) then _ else _) as [sl|x]; [|now split].
    cbn. apply sender_ignores_network.
  - split; reflexivity.
  - split; reflexivity.
  - destruct (close_keeps_trading (with_network net h) w) as [A B].
    destruct (close_keeps_trading h w) as [A' B'].
    split; congruence.
  - apply sender_ignores_network.
Qed.

Lemma call_keeps_flag_down (c : Callback) (h : Env) (w : World) :
  telegram_sent (trading w) = false ->
  telegram_sent (trading (snd (call c h w))) = false.
Proof.
  intros F. destruct c; cbn [call].
  - unfold go_long, mbind, lift.
    destruct (if use_ema_sl (hp h) then _ else _) as [sl|x]; [|exact F].
    cbn. now rewrite notification_keeps_trading.
  - unfold go_short, mbind, lift.
    destruct (if use_ema_sl (hp h) then _ else _) as [sl|x]; [|exact F].
    cbn. now rewrite notification_keeps_trading.
  - destruct (update_position_only_moves_stop h w) as (_ & _ & _ & T & _).
    congruence.
  - reflexivity.
  - destruct (close_keeps_trading h w) as [_ T]. now rewrite T.
  - now rewrite notification_keeps_trading.
Qed.

(** X16.  The notification flag [telegram_sent] is never raised: from a
    world where it is false (as after [__init__]), it is still false
    after any series of invocations with any inputs, whatever they
    return or raise. *)
Theorem flag_is_never_raised (cs : list (Callback * Env)) (w : World) :
  telegram_sent (trading w) = false ->
  telegram_sent (trading (session cs w)) = false.
Proof.
  revert w. induction cs as [|[c h] rest IH]; intros w F; [exact F|].
  cbn [session]. apply IH. unfold host_prepare. cbn.
  now apply call_keeps_flag_down.
Qed.

End Isolation.

(** ** More on the indicators and the entry tests *)

Section IndicatorDetails.

Context {J : Jesse}.

(** X17.  [consecutive_volume_bars] returns 0 on a window without bars,
    and raises [IndexError] on a window that has more bars than the
    volume EMA has values: the first bar it visits, the latest one, has
    no EMA value. *)
Theorem bars_need_an_ema_value (h : Env) :
  (candles h = [] -> consecutive_volume_bars h = Ret 0%Z) /\
  ((List.length (ema_volume h) < List.length (candles h))%nat ->
   consecutive_volume_bars h = Raise IndexError).
Proof.
  unfold consecutive_volume_bars. split.
  - intros E. now rewrite E.
  - intros L.
    destruct (List.length (candles h)) as [|i] eqn:N; [lia|].
    cbn [count_back]. rewrite !index_nat.
    destruct (nth_error (candles h) i) as [c|] eqn:C;
      [|apply nth_error_None in C; lia].
    assert (E : nth_error (ema_volume h) i = None)
      by (apply nth_error_None; lia).
    now rewrite E.
Qed.

(** X18.  With enough history and a positive volume EMA [past],
    [growth_lookback + 1] bars back, [ema_volume_growth] returns
    [(cur - past) / past * 100] where [cur] is the latest value, and the
    enabled growth check passes exactly when
    [cur >= past * (1 + min_growth_percent / 100)]. *)
Theorem growth_check_is_a_ratio_test (h : Env) (cur past : Q) :
  ~ insufficient_history h ->
  index (ema_volume h) (-1) = Ret cur ->
  index (ema_volume h) (- growth_lookback (hp h) - 1) = Ret past ->
  0 < past ->
  use_volume_growth (hp h) = true ->
  ema_volume_growth h = Ret ((cur - past) / past * 100) /\
  (check_volume_growth h = Ret true <->
   past * (1 + min_growth_percent (hp h) / 100) <= cur).
Proof.
  intros S C P Pos U.
  assert (Nz : Qeq_bool past 0 = false).
  { destruct (Qeq_bool past 0) eqn:E; [|reflexivity].
    apply Qeq_bool_iff in E. rewrite E in Pos. discriminate. }
  assert (G : ema_volume_growth h = Ret ((cur - past) / past * 100)).
  { unfold ema_volume_growth, insufficient_history in *.
    destruct (Z.ltb_spec (Z.of_nat (List.length (ema_volume h)))
                (growth_lookback (hp h) + 1)) as [L|L]; [contradiction|].
    rewrite C, P. cbn. unfold Py.eq, Py.div. now rewrite Nz. }
  split; [exact G|].
  unfold check_volume_growth. rewrite U, G. cbn.
  set (m := min_growth_percent (hp h)).
  assert (Np : ~ past == 0) by (intros E; rewrite E in Pos; discriminate).
  assert (D : (cur - past) / past * 100 * past == 100 * (cur - past))
    by (field; exact Np).
  assert (K : m <= (cur - past) / past * 100 <->
              past * (1 + m / 100) <= cur).
  { split; intros X.
    - assert (Y : m * past <= (cur - past) / past * 100 * past)
        by (apply Qmult_le_compat_r; [exact X|now apply Qlt_le_weak]).
      rewrite D in Y.
      setoid_replace (past * (1 + m / 100)) with (past + (1 # 100) * (m * past))
        by field.
      lra.
    - apply (Qmult_le_r _ _ past Pos). rewrite D.
      setoid_replace (past * (1 + m / 100)) with (past + (1 # 100) * (m * past))
        in X by field.
      lra. }
  rewrite <- K, <- ge_iff. split; intros X; congruence.
Qed.

(** X19.  [should_long] returns true exactly when the candle closed
    above its open, the close is above the latest trend EMA, the volume
    spike is there and each of the three checks returns true;
    [should_short] likewise with the close below the open and below the
    trend EMA. *)
Theorem entry_needs_every_filter (h : Env) :
  (should_long h = Ret true <->
   open h < close h /\
   (exists t, index (ema_trend h) (-1) = Ret t /\ t < close h) /\
   volume_spike h = Ret true /\
   check_volume_growth h = Ret true /\
   check_sustained_volume h = Ret true /\
   check_volume_rsi_filter h = Ret true) /\
  (should_short h = Ret true <->
   close h < open h /\
   (exists t, index (ema_trend h) (-1) = Ret t /\ close h < t) /\
   volume_spike h = Ret true /\
   check_volume_growth h = Ret true /\
   check_sustained_volume h = Ret true /\
   check_volume_rsi_filter h = Ret true).
Proof.
  unfold should_long, should_short. split; split.
  - destruct (index (ema_trend h) (-1)) as [t|]; [|discriminate].
    destruct (volume_spike h) as [v|]; [|discriminate].
    destruct (check_volume_growth h) as [g|]; [|discriminate].
    destruct (check_sustained_volume h) as [s|]; [|discriminate].
    destruct (check_volume_rsi_filter h) as [r|]; [|discriminate].
    cbn. intros E. injection E as E.
    repeat (apply andb_prop in E; destruct E as [E ?]); subst.
    apply gt_iff in E. repeat split; try assumption.
    exists t. split; [reflexivity|]. now apply gt_iff.
  - intros (B & (t & T & A) & V & G & S & R).
    rewrite T, V, G, S, R. cbn.
    apply gt_iff in B. apply gt_iff in A. now rewrite B, A.
  - destruct (index (ema_trend h) (-1)) as [t|]; [|discriminate].
    destruct (volume_spike h) as [v|]; [|discriminate].
    destruct (check_volume_growth h) as [g|]; [|discriminate].
    destruct (check_sustained_volume h) as [s|]; [|discriminate].
    destruct (check_volume_rsi_filter h) as [r|]; [|discriminate].
    cbn. intros E. injection E as E.
    repeat (apply andb_prop in E; destruct E as [E ?]); subst.
    apply lt_iff in E. repeat split; try assumption.
    exists t. split; [reflexivity|]. now apply lt_iff.
  - intros (B & (t & T & A) & V & G & S & R).
    rewrite T, V, G, S, R. cbn.
    apply lt_iff in B. apply lt_iff in A. now rewrite B, A.
Qed.

(** X20.  [should_long] and [should_short] read the same indicators in
    the same order before they combine their tests, so one raises an
    exception exactly when the other raises the same one; with an empty
    trend EMA both raise [IndexError], whatever the candle and the
    filters are. *)
Theorem entries_raise_together (h : Env) :
  (forall x, should_long h = Raise x <-> should_short h = Raise x) /\
  (ema_trend h = [] ->
   should_long h = Raise IndexError /\ should_short h = Raise IndexError).
Proof.
  unfold should_long, should_short. split.
  - intros x.
    destruct (index (ema_trend h) (-1)) as [t|]; [|reflexivity].
    destruct (volume_spike h) as [v|]; [|reflexivity].
    destruct (check_volume_growth h) as [g|]; [|reflexivity].
    destruct (check_sustained_volume h) as [s|]; [|reflexivity].
    destruct (check_volume_rsi_filter h) as [r|]; [|reflexivity].
    cbn. split; discriminate.
  - intros E. rewrite E, index_empty. split; reflexivity.
Qed.

End IndicatorDetails.

(** ** The properties on concrete windows *)

Import Sample Fixtures.

Ltac by_running :=
  vm_compute; first [reflexivity | discriminate | intro; discriminate].

Example spike_enters_long :
  should_long spike = Ret true /\ should_short spike = Ret false.
Proof. split; reflexivity. Qed.

Example boundary_is_no_spike :
  volume_spike boundary = Ret false /\ should_long boundary = Ret false.
Proof. split; reflexivity. Qed.

Example sustained_counts_two_bars :
  consecutive_volume_bars sustained = Ret 2%Z.
Proof. reflexivity. Qed.

Example long_stops_only_rise :
  stop_trace [long_tick 103; long_tick 105; long_tick 104] entered_long =
  [Some 101.97; Some 103.95; Some 103.95].
Proof. vm_compute. reflexivity. Qed.

Example short_stops_only_fall :
  stop_trace [short_tick 97; short_tick 95; short_tick 96] entered_short =
  [Some 97.97; Some 95.95; Some 95.95].
Proof. vm_compute. reflexivity. Qed.

(** Before the host has stored the entry, the stop is still the assigned
    tuple and reading its first row raises. *)
Example update_before_storage_raises :
  fst (update_position (long_tick 103) (snd (go_long (long_tick 100) fresh))) =
  Raise TypeError.
Proof. reflexivity. Qed.

Example entry_with_network_down :
  fst (go_long notified_offline fresh) = Ret tt /\
  console (snd (go_long notified_offline fresh)) =
    ["Erreur Telegram: timed out"%string].
Proof. split; reflexivity. Qed.

(** Against C1 as stated: three bars under the default options (growth
    filter on, look-back 5, threshold 15) are an insufficient history,
    and the growth check returns false. *)
Lemma growth_filter_rejects_short_history :
  hp_in_range (hp short_history) /\
  insufficient_history short_history /\
  use_volume_growth (hp short_history) = true /\
  check_volume_growth short_history = Ret false.
Proof. unfold hp_in_range. repeat split; by_running. Qed.

Lemma growth_filter_on_short_history_witness :
  insufficient_history short_history /\
  use_volume_growth (hp short_history) = true /\
  0 < min_growth_percent (hp short_history) /\
  ema_volume_growth short_history = Ret 0 /\
  check_volume_growth short_history = Ret false.
Proof.
  assert (S : insufficient_history short_history) by by_running.
  assert (U : use_volume_growth (hp short_history) = true) by reflexivity.
  assert (P : 0 < min_growth_percent (hp short_history)) by by_running.
  destruct (growth_filter_on_short_history short_history S U)
    as (G & _ & _ & F).
  exact (conj S (conj U (conj P (conj G (F P))))).
Defined.

Lemma disabled_filter_passes_witness :
  use_volume_growth (hp empty_window) = false /\
  use_sustained_volume (hp empty_window) = false /\
  use_volume_rsi (hp empty_window) = false /\
  check_volume_growth empty_window = Ret true /\
  check_sustained_volume empty_window = Ret true /\
  check_volume_rsi_filter empty_window = Ret true.
Proof.
  destruct (disabled_filter_passes empty_window) as (G & S & R).
  exact (conj eq_refl (conj eq_refl (conj eq_refl
           (conj (G eq_refl) (conj (S eq_refl) (R eq_refl)))))).
Defined.

Lemma volume_spike_is_strict_witness :
  current_volume boundary = Ret 13990 /\
  index (ema_volume boundary) (-1) = Ret 1399 /\
  13990 == volume_multiplier (hp boundary) * 1399 /\
  volume_spike boundary = Ret false.
Proof.
  assert (V : current_volume boundary = Ret 13990) by reflexivity.
  assert (E : index (ema_volume boundary) (-1) = Ret 1399) by reflexivity.
  assert (B : 13990 == volume_multiplier (hp boundary) * 1399) by by_running.
  exact (conj V (conj E (conj B
           (proj2 (volume_spike_is_strict boundary) 13990 1399 V E B)))).
Defined.

(** Against C10 as stated: with a look-back of -3 on two bars the
    property raises [IndexError]. *)
Lemma ema_volume_growth_raises_on_negative_lookback :
  growth_lookback (hp negative_lookback) = (-3)%Z /\
  List.length (candles negative_lookback) = 2%nat /\
  ema_volume_growth negative_lookback = Raise IndexError.
Proof. repeat split. Qed.

Lemma ema_volume_growth_avoids_zero_division_witness :
  (0 <= growth_lookback (hp dormant))%Z /\
  ~ insufficient_history dormant /\
  index (ema_volume dormant) (- growth_lookback (hp dormant) - 1) = Ret 0 /\
  ema_volume_growth dormant = Ret 0.
Proof.
  assert (K : (0 <= growth_lookback (hp dormant))%Z) by by_running.
  assert (S : ~ insufficient_history dormant) by by_running.
  assert (P : index (ema_volume dormant)
                (- growth_lookback (hp dormant) - 1) = Ret 0) by reflexivity.
  destruct (ema_volume_growth_avoids_zero_division dormant) as (_ & _ & Z0).
  exact (conj K (conj S (conj P (Z0 0 S P (Qeq_refl 0))))).
Defined.

Lemma consecutive_bars_is_maximal_suffix_witness :
  (List.length (candles sustained) <= List.length (ema_volume sustained))%nat /\
  use_sustained_volume (hp sustained) = true /\
  consecutive_volume_bars sustained = Ret 2%Z /\
  maximal_suffix sustained 2 /\
  check_sustained_volume sustained = Ret true.
Proof.
  assert (L : (List.length (candles sustained)
               <= List.length (ema_volume sustained))%nat) by (cbn; lia).
  assert (U : use_sustained_volume (hp sustained) = true) by reflexivity.
  destruct (consecutive_bars_is_maximal_suffix sustained L)
    as (n & C & Mx & _ & Chk).
  assert (E : consecutive_volume_bars sustained = Ret 2%Z) by reflexivity.
  assert (N : n = 2%nat) by (rewrite E in C; injection C; lia).
  subst n. destruct (Chk U) as (_ & T).
  assert (M : (min_consecutive_bars (hp sustained) <= Z.of_nat 2)%Z)
    by by_running.
  exact (conj L (conj U (conj E (conj Mx (proj2 T M))))).
Defined.

(** Against C4 as stated: a rising candle above the trend in a window
    without any traded volume meets the scenario with a volume EMA of 0
    (the volume 0 is twelve times 0), and [should_long] returns false. *)
Lemma long_scenario_without_volume :
  long_scenario zero_volume 0 (1445 # 1441) /\
  should_long zero_volume = Ret false.
Proof.
  split; [|reflexivity].
  unfold long_scenario.
  repeat match goal with |- _ /\ _ => split end; try by_running.
  exists 0. split; by_running.
Qed.

Lemma long_entry_scenario_witness :
  long_scenario spike 1399 (144120 # 1441) /\
  0 < 1399 /\
  should_long spike = Ret true /\
  (exists tp,
     take_profit (trading (snd (go_long spike fresh))) =
       Some (Pair (position_size spike) tp) /\
     tp == price spike * 1.04) /\
  stop_loss (trading (snd (go_long spike fresh))) =
    Some (Pair (position_size spike) (144120 # 1441)).
Proof.
  assert (Sc : long_scenario spike 1399 (144120 # 1441)).
  { unfold long_scenario.
    repeat match goal with |- _ /\ _ => split end; try by_running.
    exists 16788. split; by_running. }
  assert (P : 0 < 1399) by by_running.
  destruct (long_entry_scenario spike 1399 (144120 # 1441) fresh Sc)
    as (L & TP & SL).
  exact (conj Sc (conj P (conj (L P) (conj TP SL)))).
Defined.

Lemma empty_token_sends_nothing_witness :
  telegram_token (hp spike) = ""%string /\
  send_telegram_notification spike "LONG" 114.4 100 fresh = (Ret tt, fresh) /\
  on_close_position spike fresh = (Ret tt, fresh) /\
  posted (snd (go_long spike fresh)) = [] /\
  posted (snd (go_short spike fresh)) = [].
Proof.
  destruct (empty_token_sends_nothing spike fresh eq_refl) as (N & C & L & S).
  exact (conj eq_refl (conj (N "LONG"%string 114.4 100) (conj C (conj L S)))).
Defined.

Lemma failed_post_is_swallowed_witness :
  truthy (telegram_token (hp notified_offline)) = true /\
  truthy (telegram_chat_id (hp notified_offline)) = true /\
  requests_post notified_offline
    (telegram_request (telegram_token (hp notified_offline))
                      (telegram_chat_id (hp notified_offline))
                      (close_message notified_offline)) = Raise ReadTimeout /\
  exists w',
    on_close_position notified_offline entered_long = (Ret tt, w') /\
    trading w' = trading entered_long /\
    List.length (posted w') = 1%nat /\
    console w' = ["Erreur Telegram: timed out"%string].
Proof.
  assert (T : truthy (telegram_token (hp notified_offline)) = true)
    by reflexivity.
  assert (C : truthy (telegram_chat_id (hp notified_offline)) = true)
    by reflexivity.
  assert (F : requests_post notified_offline
                (telegram_request (telegram_token (hp notified_offline))
                   (telegram_chat_id (hp notified_offline))
                   (close_message notified_offline)) = Raise ReadTimeout)
    by reflexivity.
  destruct (failed_post_is_swallowed notified_offline entered_long
              ReadTimeout T C) as (_ & Close).
  destruct (Close F) as (w' & R & Tr & Po & Co).
  repeat split; try assumption.
  exists w'. repeat split; try assumption.
  rewrite Po. reflexivity.
Defined.

Lemma trailing_stop_ratchet_witness :
  Forall (fun h => is_long h = true)
    [long_tick 103; long_tick 105; long_tick 104] /\
  stop_price entered_long = Some 100 /\
  exists ps,
    fst (run_updates [long_tick 103; long_tick 105; long_tick 104]
           entered_long) = Ret tt /\
    stop_trace [long_tick 103; long_tick 105; long_tick 104] entered_long =
      map Some ps /\
    List.length ps = 3%nat /\
    StronglySorted Qle (100 :: ps).
Proof.
  assert (F : Forall (fun h => is_long h = true)
                [long_tick 103; long_tick 105; long_tick 104])
    by (repeat constructor).
  assert (P : stop_price entered_long = Some 100) by reflexivity.
  exact (conj F (conj P
           (proj1 (proj2 trailing_stop_ratchet) _ entered_long 100 F P))).
Defined.

(** ** The further properties on concrete windows *)

Lemma percent_levels_bracket_price_witness :
  use_ema_sl (hp percent_stop) = false /\
  0 < price percent_stop /\
  0 < tp_percent (hp percent_stop) /\
  0 < sl_percent (hp percent_stop) /\
  exists tp sl,
    take_profit (trading (snd (go_long percent_stop fresh))) =
      Some (Pair (position_size percent_stop) tp) /\
    stop_loss (trading (snd (go_long percent_stop fresh))) =
      Some (Pair (position_size percent_stop) sl) /\
    sl < price percent_stop /\ price percent_stop < tp.
Proof.
  assert (U : use_ema_sl (hp percent_stop) = false) by reflexivity.
  assert (P : 0 < price percent_stop) by by_running.
  assert (T : 0 < tp_percent (hp percent_stop)) by by_running.
  assert (S : 0 < sl_percent (hp percent_stop)) by by_running.
  exact (conj U (conj P (conj T (conj S
           (proj1 (percent_levels_bracket_price percent_stop fresh U P T S)))))).
Defined.

Lemma entry_writes_three_instructions_witness :
  index (ema_trend spike) (-1) = Ret (144120 # 1441) /\
  buy (trading (snd (go_long spike fresh))) =
    Some (Pair (position_size spike) (price spike)) /\
  stop_loss (trading (snd (go_long spike fresh))) =
    Some (Pair (position_size spike) (144120 # 1441)) /\
  sell (trading (snd (go_long spike fresh))) = None.
Proof.
  assert (S : (if use_ema_sl (hp spike) then index (ema_trend spike) (-1)
               else Ret (price spike - price spike * sl_percent (hp spike) / 100))
              = Ret (144120 # 1441)) by reflexivity.
  destruct (proj1 (entry_writes_three_instructions spike fresh) _ S)
    as (B & _ & L & Se & _).
  exact (conj eq_refl (conj B (conj L Se))).
Defined.

Lemma entry_without_trend_writes_nothing_witness :
  use_ema_sl (hp empty_window) = true /\
  ema_trend empty_window = [] /\
  go_long empty_window fresh = (Raise IndexError, fresh) /\
  go_short empty_window fresh = (Raise IndexError, fresh).
Proof.
  exact (conj eq_refl (conj eq_refl
           (entry_without_trend_writes_nothing empty_window fresh
              eq_refl eq_refl))).
Defined.

Lemma update_position_idle_witness :
  is_long (long_tick 101) = true /\
  price (long_tick 101) <
    entry_price (position (long_tick 101)) *
    (1 + trail_activation (hp (long_tick 101)) / 100) /\
  update_position (long_tick 101) fresh = (Ret tt, fresh).
Proof.
  assert (L : is_long (long_tick 101) = true) by reflexivity.
  assert (B : price (long_tick 101) <
              entry_price (position (long_tick 101)) *
              (1 + trail_activation (hp (long_tick 101)) / 100))
    by by_running.
  exact (conj L (conj B
           (update_position_idle (long_tick 101) fresh
              (or_intror (or_intror (or_introl (conj L B))))))).
Defined.

Lemma update_position_needs_stored_stop_witness :
  is_long (long_tick 103) = true /\
  trailing_active_long (long_tick 103) /\
  stop_loss (trading fresh) = None /\
  update_position (long_tick 103) fresh = (Raise TypeError, fresh).
Proof.
  assert (L : is_long (long_tick 103) = true) by reflexivity.
  assert (A : trailing_active_long (long_tick 103))
    by (split; by_running).
  exact (conj L (conj A (conj eq_refl
           (proj1 (update_position_needs_stored_stop (long_tick 103) fresh
                     (or_introl (conj L A)))
                  eq_refl)))).
Defined.

Lemma update_position_replaces_exactly_witness :
  item_0_1 (stop_loss (trading entered_long)) = Ret 100 /\
  is_long (long_tick 103) = true /\
  trailing_active_long (long_tick 103) /\
  100 < long_candidate (long_tick 103) /\
  update_position (long_tick 103) entered_long =
    set_stop_loss (Pair (qty (position (long_tick 103)))
                        (long_candidate (long_tick 103))) entered_long.
Proof.
  assert (I : item_0_1 (stop_loss (trading entered_long)) = Ret 100)
    by reflexivity.
  assert (L : is_long (long_tick 103) = true) by reflexivity.
  assert (A : trailing_active_long (long_tick 103))
    by (split; by_running).
  assert (C : 100 < long_candidate (long_tick 103)) by by_running.
  exact (conj I (conj L (conj A (conj C
           (proj1 (proj1 (update_position_replaces_exactly
                            (long_tick 103) entered_long 100 I) L)
                  (conj A C)))))).
Defined.

Lemma replaced_stop_locks_profit_witness :
  stop_price entered_long = Some 100 /\
  stop_price (host_prepare (snd (update_position (long_tick 103) entered_long)))
    = Some 101.97 /\
  101.97 < price (long_tick 103) /\
  entry_price (position (long_tick 103)) <= 101.97.
Proof.
  assert (P : stop_price entered_long = Some 100) by reflexivity.
  assert (P' : stop_price (host_prepare
                 (snd (update_position (long_tick 103) entered_long)))
               = Some 101.97) by (vm_compute; reflexivity).
  assert (Ne : ~ 101.97 == 100) by by_running.
  assert (Pr : 0 < price (long_tick 103)) by by_running.
  assert (O : 0 < trail_offset (hp (long_tick 103)) <= 100)
    by (split; by_running).
  assert (En : 0 <= entry_price (position (long_tick 103))) by by_running.
  assert (B : 1 <= (1 + trail_activation (hp (long_tick 103)) / 100) *
                   (1 - trail_offset (hp (long_tick 103)) / 100))
    by by_running.
  destruct (proj1 (replaced_stop_locks_profit (long_tick 103) entered_long
                     100 101.97 P P' Ne Pr O En) eq_refl) as [Below Lock].
  exact (conj P (conj P' (conj Below (Lock B)))).
Defined.

Lemma final_stop_is_running_extremum_witness :
  stop_price entered_long = Some 100 /\
  Forall (fun h => is_long h = true)
    [long_tick 103; long_tick 105; long_tick 104] /\
  exists w' p',
    run_updates [long_tick 103; long_tick 105; long_tick 104] entered_long =
      (Ret tt, w') /\
    stop_price w' = Some p' /\
    long_candidate (long_tick 105) <= p'.
Proof.
  assert (P : stop_price entered_long = Some 100) by reflexivity.
  assert (F : Forall (fun h => is_long h = true)
                [long_tick 103; long_tick 105; long_tick 104])
    by (repeat constructor).
  assert (A : trailing_active_long (long_tick 105)) by (split; by_running).
  destruct (proj1 (final_stop_is_running_extremum
                     [long_tick 103; long_tick 105; long_tick 104]
                     entered_long 100 P) F)
    as (w' & p' & Run & P' & _ & Max & _).
  refine (conj P (conj F _)). exists w', p'.
  refine (conj Run (conj P' (Max (long_tick 105) _ A))).
  right; left; reflexivity.
Defined.

Lemma missing_credential_sends_nothing_witness :
  telegram_chat_id (hp no_chat) = ""%string /\
  truthy (telegram_token (hp no_chat)) = true /\
  send_telegram_notification no_chat "LONG" 114.4 100 fresh = (Ret tt, fresh) /\
  on_close_position no_chat fresh = (Ret tt, fresh).
Proof.
  destruct (missing_credential_sends_nothing no_chat fresh
              (or_intror eq_refl)) as [S C].
  exact (conj eq_refl (conj eq_refl (conj (S "LONG"%string 114.4 100) C))).
Defined.

Lemma delivered_notification_witness :
  truthy (telegram_token (hp notified_online)) = true /\
  truthy (telegram_chat_id (hp notified_online)) = true /\
  fst (on_close_position notified_online fresh) = Ret tt /\
  List.length (posted (snd (on_close_position notified_online fresh))) = 1%nat /\
  console (snd (on_close_position notified_online fresh)) = [].
Proof.
  assert (T : truthy (telegram_token (hp notified_online)) = true)
    by reflexivity.
  assert (C : truthy (telegram_chat_id (hp notified_online)) = true)
    by reflexivity.
  pose proof (proj2 (delivered_notification notified_online fresh T C)
                eq_refl) as D.
  rewrite D. cbn [fst snd posted console].
  exact (conj T (conj C (conj eq_refl (conj eq_refl eq_refl)))).
Defined.

Lemma message_failure_escapes_witness :
  truthy (telegram_token (hp notified_empty)) = true /\
  truthy (telegram_chat_id (hp notified_empty)) = true /\
  candles notified_empty = [] /\
  use_ema_sl (hp notified_empty) = false /\
  fst (go_long notified_empty fresh) = Raise IndexError /\
  posted (snd (go_long notified_empty fresh)) = [].
Proof.
  assert (T : truthy (telegram_token (hp notified_empty)) = true)
    by reflexivity.
  assert (C : truthy (telegram_chat_id (hp notified_empty)) = true)
    by reflexivity.
  destruct (proj2 (proj2 (message_failure_escapes notified_empty fresh T C)
                     eq_refl) eq_refl) as (R & P & _).
  exact (conj T (conj C (conj eq_refl (conj eq_refl (conj R P))))).
Defined.

Lemma at_most_one_post_witness :
  posted (snd (call UpdatePosition (long_tick 103) entered_long)) =
    posted entered_long /\
  console (snd (call UpdatePosition (long_tick 103) entered_long)) =
    console entered_long.
Proof.
  destruct (at_most_one_post UpdatePosition (long_tick 103) entered_long)
    as (rs & ls & P & C & _ & N).
  destruct (N (or_introl eq_refl)) as [-> ->].
  rewrite !app_nil_r in *. exact (conj P C).
Defined.

Lemma flag_is_never_raised_witness :
  telegram_sent (trading fresh) = false /\
  telegram_sent
    (trading (session [(GoLong, notified_offline);
                       (OnOpenPosition, long_tick 100);
                       (UpdatePosition, long_tick 103);
                       (OnClosePosition, notified_online)] fresh)) = false.
Proof.
  exact (conj eq_refl (flag_is_never_raised _ fresh eq_refl)).
Defined.

Lemma bars_need_an_ema_value_witness :
  (List.length (ema_volume (J := late_host) sustained)
   < List.length (candles sustained))%nat /\
  consecutive_volume_bars (J := late_host) sustained = Raise IndexError /\
  candles empty_window = [] /\
  consecutive_volume_bars empty_window = Ret 0%Z.
Proof.
  assert (L : (List.length (ema_volume (J := late_host) sustained)
               < List.length (candles sustained))%nat) by (cbn; lia).
  exact (conj L
           (conj (proj2 (bars_need_an_ema_value (J := late_host) sustained) L)
              (conj eq_refl
                 (proj1 (bars_need_an_ema_value empty_window) eq_refl)))).
Defined.

Lemma growth_check_is_a_ratio_test_witness :
  ~ insufficient_history growing /\
  index (ema_volume growing) (-1) = Ret (1639000 # 1401) /\
  index (ema_volume growing) (- growth_lookback (hp growing) - 1) = Ret 1000 /\
  1000 * (1 + min_growth_percent (hp growing) / 100) <= 1639000 # 1401 /\
  check_volume_growth growing = Ret true.
Proof.
  assert (S : ~ insufficient_history growing) by by_running.
  assert (C : index (ema_volume growing) (-1) = Ret (1639000 # 1401))
    by reflexivity.
  assert (P : index (ema_volume growing)
                (- growth_lookback (hp growing) - 1) = Ret 1000)
    by reflexivity.
  assert (Pos : 0 < 1000) by by_running.
  assert (B : 1000 * (1 + min_growth_percent (hp growing) / 100)
              <= 1639000 # 1401) by by_running.
  destruct (growth_check_is_a_ratio_test growing (1639000 # 1401) 1000
              S C P Pos eq_refl) as [_ K].
  exact (conj S (conj C (conj P (conj B (proj2 K B))))).
Defined.

Lemma entry_needs_every_filter_witness :
  should_long spike = Ret true /\
  open spike < close spike /\
  volume_spike spike = Ret true.
Proof.
  assert (L : should_long spike = Ret true) by reflexivity.
  destruct (proj1 (proj1 (entry_needs_every_filter spike)) L)
    as (B & _ & V & _).
  exact (conj L (conj B V)).
Defined.

Lemma entries_raise_together_witness :
  ema_trend empty_window = [] /\
  should_long empty_window = Raise IndexError /\
  should_short empty_window = Raise IndexError.
Proof.
  exact (conj eq_refl
           (proj2 (entries_raise_together empty_window) eq_refl)).
Defined.
